(** * Classification metric reporters of pytext

    A shallow embedding of
    [pytext/metric_reporters/classification_metric_reporter.py]:
    the configuration check [from_config_and_label_names], the batch
    aggregator [add_batch_stats] of the three reporters, the assembly of
    the metric calculators' inputs in [calculate_metric], the top-k metric
    calculator [compute_topk_classification_metrics] and the
    model-selection extractor [get_model_select_metric].

    Python lists are lists, dictionaries are [gmap]s, exceptions are the
    [Raise] results of a small error monad, and the reporter object is a
    record that every mutating method returns anew.  Numbers of the report
    are rationals: the code modelled here only negates them and divides
    one counter by another. *)

From Stdlib Require Import ZArith QArith Bool.
From stdpp Require Import base option list sorting gmap strings.

Open Scope Z_scope.

(** ** Python values, exceptions and sequences *)

(** The exceptions the modelled code can raise. *)
Inductive exn : Type :=
  | AssertionError
  | ValueError
  | KeyError
  | IndexError
  | TypeError
  | RuntimeError.

Inductive result (A : Type) : Type :=
  | Ok (a : A)
  | Raise (e : exn).
Arguments Ok {A} a.
Arguments Raise {A} e.

Definition bind {A B : Type} (r : result A) (k : A → result B) : result B :=
  match r with
  | Ok a => k a
  | Raise e => Raise e
  end.

Notation "'let*' x ':=' r 'in' k" := (bind r (λ x, k))
  (at level 10, x name, r at level 100, k at level 200, only parsing).
Notation "'let*' ' p ':=' r 'in' k" := (bind r (λ p, k))
  (at level 10, p pattern, r at level 100, k at level 200, only parsing).

(** [for x in xs: acc = f(acc, x)], stopping at the first exception. *)
Fixpoint fold_result {A S : Type} (f : S → A → result S) (s : S) (xs : list A)
  : result S :=
  match xs with
  | [] => Ok s
  | x :: xs' => let* s' := f s x in fold_result f s' xs'
  end.

(** [list(map(f, xs))]: left to right, the first exception wins. *)
Fixpoint map_result {A B : Type} (f : A → result B) (xs : list A) : result (list B) :=
  match xs with
  | [] => Ok []
  | x :: xs' => let* y := f x in let* ys := map_result f xs' in Ok (y :: ys)
  end.

(** The values the accumulation buffers hold after a tensor has been turned
    into a plain list: label indices, scores, and rows of them. *)
#[warnings="-register-all"]
Inductive pyval : Type :=
  | PInt (z : Z)
  | PFloat (q : Q)
  | PList (l : list pyval).

(** [seq[i]] on a Python list: indices in [0, n) count from the front,
    indices in [-n, 0) from the back, anything else is an [IndexError]. *)
Definition py_getitem {A : Type} (l : list A) (i : Z) : result A :=
  let n := Z.of_nat (length l) in
  let j := if i <? 0 then n + i else i in
  if (0 <=? j) && (j <? n)
  then match l !! Z.to_nat j with
       | Some x => Ok x
       | None => Raise IndexError
       end
  else Raise IndexError.

(** [label_names.__getitem__(v)] for a value met in a buffer: only an
    integer is a list index. *)
Definition py_index {A : Type} (l : list A) (v : pyval) : result A :=
  match v with
  | PInt i => py_getitem l i
  | _ => Raise TypeError
  end.

(** Iterating a value: only a list yields elements here. *)
Definition py_iter (v : pyval) : result (list pyval) :=
  match v with
  | PList l => Ok l
  | _ => Raise TypeError
  end.

(** [zip(a, b, c)]: stops at the shortest argument. *)
Fixpoint zip3 {A B C : Type} (a : list A) (b : list B) (c : list C)
  : list (A * B * C) :=
  match a, b, c with
  | x :: a', y :: b', z :: c' => (x, y, z) :: zip3 a' b' c'
  | _, _, _ => []
  end.

(** [zip_longest(a, b, c, fillvalue=fill)]: as long as the longest
    argument, the exhausted ones yield [fill]. *)
Definition zip_longest {A : Type} (fill : A) (a b c : list A)
  : list (A * A * A) :=
  (λ i, (default fill (a !! i), default fill (b !! i), default fill (c !! i)))
    <$> seq 0 (length a `max` (length b `max` length c)).

(** [itertools.tee(it, n)]: a tuple of [n] iterators over what [it] still
    has to yield; nothing is pulled from [it] by the call itself. *)
Definition tee {A : Type} (it : list A) (n : nat) : list (list A) :=
  replicate n it.

(** ** Data model *)

Inductive ComparableClassificationMetric : Type :=
  | ACCURACY
  | ROC_AUC
  | MCC
  | MACRO_F1
  | LABEL_F1
  | LABEL_AVG_PRECISION
  | LABEL_ROC_AUC
  | NEGATIVE_LOSS.

Global Instance ComparableClassificationMetric_eq_dec :
  EqDecision ComparableClassificationMetric.
Proof. solve_decision. Defined.

(** The value of each member, the identifier a configuration names it
    by. *)
Definition metric_value (m : ComparableClassificationMetric) : string :=
  match m with
  | ACCURACY => "accuracy"
  | ROC_AUC => "roc_auc"
  | MCC => "mcc"
  | MACRO_F1 => "macro_f1"
  | LABEL_F1 => "label_f1"
  | LABEL_AVG_PRECISION => "label_avg_precision"
  | LABEL_ROC_AUC => "label_roc_auc"
  | NEGATIVE_LOSS => "negative_loss"
  end.

(** The members in the order of their declaration: what iterating over
    the enumeration yields. *)
Definition metric_members : list ComparableClassificationMetric :=
  [ACCURACY; ROC_AUC; MCC; MACRO_F1; LABEL_F1; LABEL_AVG_PRECISION;
   LABEL_ROC_AUC; NEGATIVE_LOSS].

(** What the attribute [model_select_metric] can hold: a member of the
    enumeration, or any other object (the [else] branch of
    [get_model_select_metric] is written for those); [repr] is its
    printed form. *)
Inductive metric_id : Type :=
  | Member (m : ComparableClassificationMetric)
  | NotMember (repr : string).

Global Instance metric_id_eq_dec : EqDecision metric_id.
Proof. solve_decision. Defined.

(** [x in (m1, m2, ...)] on a tuple of enumeration members. *)
Definition metric_in (x : metric_id) (ms : list ComparableClassificationMetric)
  : bool :=
  bool_decide (x ∈ Member <$> ms).

(** The fields of [ClassificationMetricReporter.Config] that
    [from_config_and_label_names] hands to the constructor.  The output
    path only reaches the file channel, an external collaborator that is
    not modelled. *)
Record Config : Type := mkConfig {
  cfg_model_select_metric : metric_id;
  cfg_target_label : option string;
  cfg_text_column_names : list string;
  cfg_additional_column_names : list string;
  cfg_recall_at_precision_thresholds : list Q;
  cfg_is_memory_efficient : bool
}.

(** The report types of [pytext.metrics] are imported by the source and
    declared elsewhere; their fields here are those the spec's data model
    lists and the source reads or sets.  A field that may be absent
    ([None]) is an [option]. *)

(** Modelled from the spec: [PRF1Scores] of [pytext.metrics], the
    precision, recall and F1 of one label or of the macro average. *)
Record PRF1Scores : Type := mkPRF1 {
  precision : Q;
  recall : Q;
  f1 : Q
}.

(** Modelled from the spec: [MacroPRF1Metrics] of [pytext.metrics], the
    per-label scores keyed by label name and the macro aggregate. *)
Record MacroPRF1Metrics : Type := mkMacro {
  per_label_scores : gmap string PRF1Scores;
  macro_scores : PRF1Scores
}.

(** Modelled from the spec: [SoftClassificationMetrics] of
    [pytext.metrics], the per-label scores computed from the score
    vectors. *)
Record SoftClassificationMetrics : Type := mkSoft {
  average_precision : option Q;
  soft_roc_auc : option Q
}.

(** Modelled from the spec: [ClassificationMetrics] of [pytext.metrics],
    the report. *)
Record ClassificationMetrics : Type := mkMetrics {
  accuracy : Q;
  macro_prf1_metrics : MacroPRF1Metrics;
  per_label_soft_scores : option (gmap string SoftClassificationMetrics);
  mcc : option Q;
  roc_auc : option Q;
  loss : option Q
}.

(** Modelled from the spec: [safe_division] of [pytext.metrics], the
    "explicit safe-division convention": a zero denominator gives zero. *)
Definition safe_division (n d : Z) : Q :=
  if d =? 0 then 0%Q else (inject_Z n / inject_Z d)%Q.

(** The per-label confusion tracker ([PerLabelConfusions] of
    [pytext.metrics.intent_slot_metrics]) is imported by the source and
    declared elsewhere. *)

(** Modelled from the spec: the outcomes that the tracker's [update]
    counts. *)
Inductive Outcome : Type := TP | FP | FN | TN.

(** Modelled from the spec: the counters the tracker keeps for one
    label. *)
Record Confusions : Type := mkConfusions {
  c_TP : Z;
  c_FP : Z;
  c_FN : Z;
  c_TN : Z
}.

(** Modelled from the spec: the counters of a label on first touch. *)
Definition no_confusions : Confusions := mkConfusions 0 0 0 0.

(** Modelled from the spec: reading one counter. *)
Definition confusion_get (c : Confusions) (o : Outcome) : Z :=
  match o with
  | TP => c_TP c
  | FP => c_FP c
  | FN => c_FN c
  | TN => c_TN c
  end.

(** Modelled from the spec: incrementing one counter. *)
Definition confusion_add (c : Confusions) (o : Outcome) (count : Z) : Confusions :=
  match o with
  | TP => mkConfusions (c_TP c + count) (c_FP c) (c_FN c) (c_TN c)
  | FP => mkConfusions (c_TP c) (c_FP c + count) (c_FN c) (c_TN c)
  | FN => mkConfusions (c_TP c) (c_FP c) (c_FN c + count) (c_TN c)
  | TN => mkConfusions (c_TP c) (c_FP c) (c_FN c) (c_TN c + count)
  end.

Module PerLabelConfusions.
Abbreviation t := (gmap string Confusions).

(** Modelled from the spec: a tracker that has seen no label. *)
Definition new : t := ∅.

(** Modelled from the spec: [update] increments the counter of the
    label and outcome, an unseen label starting from zero. *)
Definition update (plc : t) (label : string) (item : Outcome) (count : Z) : t :=
  <[label := confusion_add (default no_confusions (plc !! label)) item count]> plc.

(** The counter of a label and outcome; zero for a label never touched. *)
Definition count (plc : t) (label : string) (item : Outcome) : Z :=
  confusion_get (default no_confusions (plc !! label)) item.

(** Modelled from the spec: the safe division of two scores. *)
Definition q_safe_division (n d : Q) : Q :=
  if Qeq_bool d 0 then 0%Q else (n / d)%Q.

(** Modelled from the spec: precision is TP/(TP+FP), recall TP/(TP+FN),
    F1 their harmonic mean, each zero on a zero denominator. *)
Definition prf1 (c : Confusions) : PRF1Scores :=
  let p := safe_division (c_TP c) (c_TP c + c_FP c) in
  let r := safe_division (c_TP c) (c_TP c + c_FN c) in
  mkPRF1 p r (q_safe_division (2 * p * r) (p + r)).

(** Modelled from the spec: [compute_metrics]; the macro scores are the
    unweighted means over the labels of the tracker.  The spec does not
    say what [log_per_label_metrics] changes, so it is ignored here; the
    properties below are stated for any [compute_metrics], and this one
    serves the worked examples. *)
Definition compute_metrics (plc : t) (log_per_label_metrics : bool)
  : MacroPRF1Metrics :=
  let per_label := prf1 <$> plc in
  let scores := snd <$> map_to_list per_label in
  let mean (f : PRF1Scores → Q) :=
    q_safe_division (foldr Qplus 0%Q (f <$> scores))
      (inject_Z (Z.of_nat (length scores))) in
  mkMacro per_label (mkPRF1 (mean precision) (mean recall) (mean f1)).
End PerLabelConfusions.

(** Modelled from the spec: the accumulation state that the base class
    [MetricReporter] (not in this file) creates in [_reset]: the
    predictions, targets and score rows seen so far, the per-batch losses,
    the per-batch example counts and the auxiliary context; the top-k
    reporter adds [all_topk_preds] in its own [_reset]. *)
Record Accumulation : Type := mkAccumulation {
  n_batches : Z;
  all_preds : list pyval;
  all_targets : list pyval;
  all_scores : list pyval;
  all_context : gmap string (list pyval);
  all_loss : list Q;
  batch_size : list Z;
  all_topk_preds : list pyval
}.

(** A reporter object: what [__init__] stores, and the state of the
    current pass. *)
Record Reporter : Type := mkReporter {
  label_names : list string;
  model_select_metric : metric_id;
  target_label : option string;
  text_column_names : list string;
  additional_column_names : list string;
  recall_at_precision_thresholds : list Q;
  is_memory_efficient : bool;
  topk : Z;
  acc : Accumulation
}.

Definition set_acc (self : Reporter) (a : Accumulation) : Reporter :=
  mkReporter (label_names self) (model_select_metric self) (target_label self)
    (text_column_names self) (additional_column_names self)
    (recall_at_precision_thresholds self) (is_memory_efficient self)
    (topk self) a.

Definition set_is_memory_efficient (self : Reporter) (b : bool) : Reporter :=
  mkReporter (label_names self) (model_select_metric self) (target_label self)
    (text_column_names self) (additional_column_names self)
    (recall_at_precision_thresholds self) b (topk self) (acc self).

(** Modelled from the spec: [MetricReporter._reset], extended by
    [TopKClassificationMetricReporter._reset]: every buffer starts empty. *)
Definition _reset : Accumulation :=
  mkAccumulation 0 [] [] [] ∅ [] [] [].

(** [TopKConfig.topk], the default of the constructor's [topk]. *)
Definition TopKConfig_topk : Z := 3.

(** [__init__]: the arguments are stored; the base class's constructor
    (not in this file) starts a fresh pass.  The channels are external
    collaborators and are left out.  [from_config_and_label_names] never
    passes [topk], so a reporter built by it has the default. *)
Definition __init__ (label_names : list string) (model_select_metric : metric_id)
    (target_label : option string)
    (text_column_names additional_column_names : list string)
    (recall_at_precision_thresholds : list Q) (is_memory_efficient : bool)
    (topk : Z) : Reporter :=
  mkReporter label_names model_select_metric target_label text_column_names
    additional_column_names recall_at_precision_thresholds is_memory_efficient
    topk _reset.

(** [assert c] *)
Definition py_assert (c : bool) : result unit :=
  if c then Ok () else Raise AssertionError.

(** ** Configuration *)

Definition from_config_and_label_names (config : Config) (label_names : list string)
  : result Reporter :=
  let* _ :=
    if metric_in (cfg_model_select_metric config)
         [LABEL_F1; LABEL_AVG_PRECISION; LABEL_ROC_AUC]
    then
      let* _ := py_assert (bool_decide (cfg_target_label config ≠ None)) in
      py_assert (bool_decide (cfg_target_label config ∈ Some <$> label_names))
    else Ok () in
  let* _ :=
    if metric_in (cfg_model_select_metric config) [ROC_AUC; MCC]
    then py_assert (bool_decide (length label_names = 2%nat))
    else Ok () in
  Ok (__init__ label_names
        (cfg_model_select_metric config)
        (cfg_target_label config)
        (cfg_text_column_names config)
        (cfg_additional_column_names config)
        (cfg_recall_at_precision_thresholds config)
        (cfg_is_memory_efficient config)
        TopKConfig_topk).

(** Modelled from the spec: a configuration as it is requested, before
    the configuration loader has read it.  The model-selection metric is
    an identifier; the other fields are those of [Config]. *)
Record RequestedConfig : Type := mkRequestedConfig {
  req_model_select_metric : string;
  req_target_label : option string;
  req_text_column_names : list string;
  req_additional_column_names : list string;
  req_recall_at_precision_thresholds : list Q;
  req_is_memory_efficient : bool
}.

(** Modelled from the spec: what configuring a reporter can end in other
    than a reporter: the loader's error on an identifier that is the value
    of no member of the enumeration declared for [model_select_metric],
    or the exception [from_config_and_label_names] raises. *)
Inductive ConfigurationError : Type :=
  | EnumTypeError (identifier : string)
  | ConstructionError (e : exn).

(** Modelled from the spec: the loader's reading of a field declared with
    the enumeration as its type: the member whose value is the
    identifier. *)
Definition enum_from_value (identifier : string)
  : option ComparableClassificationMetric :=
  find (λ m, bool_decide (metric_value m = identifier)) metric_members.

(** Modelled from the spec: configuring a reporter.  The configuration
    loader lives outside this file; it fills [Config] from the request,
    and the reporter is then built from it by
    [from_config_and_label_names]. *)
Definition configure (requested : RequestedConfig) (label_names : list string)
  : ConfigurationError + Reporter :=
  match enum_from_value (req_model_select_metric requested) with
  | None => inl (EnumTypeError (req_model_select_metric requested))
  | Some m =>
      match from_config_and_label_names
              (mkConfig (Member m)
                 (req_target_label requested)
                 (req_text_column_names requested)
                 (req_additional_column_names requested)
                 (req_recall_at_precision_thresholds requested)
                 (req_is_memory_efficient requested))
              label_names with
      | Ok r => inr r
      | Raise e => inl (ConstructionError e)
      end
  end.

(** ** Batch aggregation *)

(** The model input of a batch: a tuple of tensors (each one a sequence
    with one entry per example), or a generator that yields them. *)
Inductive ModelInput : Type :=
  | InputTuple (tensors : list (list pyval))
  | InputGenerator (pending : list (list pyval)).

(** A value of the [context] keywords: a tensor or a list, or anything
    else (a single value for the whole batch). *)
Inductive ContextValue : Type :=
  | CtxSequence (items : list pyval)
  | CtxOther.

(** The arguments of one [add_batch_stats] call.  [preds] and [targets]
    are given as the list of per-example values of the tensor, [scores]
    as the rows of the score matrix. *)
Record Batch : Type := mkBatch {
  b_n_batches : Z;
  b_preds : list pyval;
  b_targets : list pyval;
  b_scores : list (list Q);
  b_loss : option Q;
  b_m_input : ModelInput;
  b_context : list (string * ContextValue)
}.

Definition set_n_batches (a : Accumulation) (n : Z) : Accumulation :=
  mkAccumulation n (all_preds a) (all_targets a) (all_scores a)
    (all_context a) (all_loss a) (batch_size a) (all_topk_preds a).

Definition set_all_preds (a : Accumulation) (v : list pyval) : Accumulation :=
  mkAccumulation (n_batches a) v (all_targets a) (all_scores a)
    (all_context a) (all_loss a) (batch_size a) (all_topk_preds a).

Definition set_all_targets (a : Accumulation) (v : list pyval) : Accumulation :=
  mkAccumulation (n_batches a) (all_preds a) v (all_scores a)
    (all_context a) (all_loss a) (batch_size a) (all_topk_preds a).

Definition set_all_scores (a : Accumulation) (v : list pyval) : Accumulation :=
  mkAccumulation (n_batches a) (all_preds a) (all_targets a) v
    (all_context a) (all_loss a) (batch_size a) (all_topk_preds a).

Definition set_all_context (a : Accumulation) (v : gmap string (list pyval))
  : Accumulation :=
  mkAccumulation (n_batches a) (all_preds a) (all_targets a) (all_scores a)
    v (all_loss a) (batch_size a) (all_topk_preds a).

Definition set_all_loss (a : Accumulation) (v : list Q) : Accumulation :=
  mkAccumulation (n_batches a) (all_preds a) (all_targets a) (all_scores a)
    (all_context a) v (batch_size a) (all_topk_preds a).

Definition set_batch_size (a : Accumulation) (v : list Z) : Accumulation :=
  mkAccumulation (n_batches a) (all_preds a) (all_targets a) (all_scores a)
    (all_context a) (all_loss a) v (all_topk_preds a).

Definition set_all_topk_preds (a : Accumulation) (v : list pyval) : Accumulation :=
  mkAccumulation (n_batches a) (all_preds a) (all_targets a) (all_scores a)
    (all_context a) (all_loss a) (batch_size a) v.

(** Modelled from the spec: [aggregate_data] of the base class
    [MetricReporter] (not in this file) appends the entries of the new
    batch to a buffer verbatim. *)
Definition aggregate_data (all_data new_batch : list pyval) : list pyval :=
  all_data ++ new_batch.

(** Modelled from the spec: [aggregate_preds] of the base class appends
    to the prediction buffer and touches no other. *)
Definition aggregate_preds (a : Accumulation) (batch_preds : list pyval)
  : Accumulation :=
  set_all_preds a (aggregate_data (all_preds a) batch_preds).

(** Modelled from the spec: [aggregate_targets] of the base class
    appends to the target buffer and touches no other. *)
Definition aggregate_targets (a : Accumulation) (batch_targets : list pyval)
  : Accumulation :=
  set_all_targets a (aggregate_data (all_targets a) batch_targets).

(** A row of a float tensor, and of an index tensor, as a plain list. *)
Definition float_row (row : list Q) : pyval := PList (PFloat <$> row).
Definition index_row (row : list Z) : pyval := PList (PInt <$> row).

(** Modelled from the spec: [aggregate_scores] of the base class appends
    the score rows to the score buffer and touches no other. *)
Definition aggregate_scores (a : Accumulation) (batch_scores : list (list Q))
  : Accumulation :=
  set_all_scores a (aggregate_data (all_scores a) (float_row <$> batch_scores)).

(** The loop over [context.items()]: a tensor or list is appended to the
    buffer of its key (created empty on first use), other values are
    skipped. *)
Definition aggregate_context (a : Accumulation) (context : list (string * ContextValue))
  : Accumulation :=
  foldl (λ a kv,
           match kv.2 with
           | CtxSequence val =>
               set_all_context a
                 (<[kv.1 := aggregate_data (default [] (all_context a !! kv.1)) val]>
                    (all_context a))
           | CtxOther => a
           end) a context.

(** ** Top-k selection *)

(** [torch.topk(batch_scores, k)] is PyTorch's, not this repository's:
    for every row of the score matrix it returns [k] of the highest
    scores and their positions, and raises when [k] is out of range.
    Which of several equal scores it returns is left open by PyTorch, so
    the top-k reporter below takes the function as a parameter. *)
Definition topk_function : Type :=
  list (list Q) → Z → result (list (list Q) * list (list Z)).

(** Modelled from the spec: insertion into a list sorted by decreasing
    score, an entry going before the entries with an equal score. *)
Fixpoint insert_desc (x : Z * Q) (l : list (Z * Q)) : list (Z * Q) :=
  match l with
  | [] => [x]
  | y :: l' =>
      if Qle_bool (snd y) (snd x) then x :: y :: l'
      else y :: insert_desc x l'
  end.

(** Modelled from the spec: the stable sort by decreasing score. *)
Definition sort_desc (l : list (Z * Q)) : list (Z * Q) :=
  foldr insert_desc [] l.

(** Modelled from the spec: the scores of a row with their positions. *)
Definition indexed (row : list Q) : list (Z * Q) :=
  imap (λ i v, (Z.of_nat i, v)) row.

(** Modelled from the spec: the selection the spec describes for one
    row, "ties broken by the underlying ordering of the score vector,
    i.e. lower label index wins ties since selection is stable".  It is
    one selection among those [torch.topk] may make, not the one PyTorch
    makes on tied scores, and only serves the worked examples. *)
Definition stable_topk_row (k : Z) (row : list Q) : result (list Q * list Z) :=
  if (0 <=? k) && (k <=? Z.of_nat (length row))
  then let best := take (Z.to_nat k) (sort_desc (indexed row)) in
       Ok (snd <$> best, fst <$> best)
  else Raise RuntimeError.

(** Modelled from the spec: the spec's stable selection on every row of a
    score matrix; an instance of [topk_function] for the worked
    examples. *)
Definition stable_topk : topk_function :=
  λ batch_scores k,
    let* rows := map_result (stable_topk_row k) batch_scores in
    Ok (fst <$> rows, snd <$> rows).

(** ** The top-k reporter and its metric calculator *)

(** The loop of [compute_topk_classification_metrics]: the running
    [num_correct] and [per_label_confusions] after one more prediction. *)
Definition topk_count_example (label_names : list string)
    (st : Z * PerLabelConfusions.t) (p : pyval * pyval * pyval)
  : result (Z * PerLabelConfusions.t) :=
  let '(num_correct, per_label_confusions) := st in
  let '(_, topk, label) := p in
  let* topk_items := py_iter topk in
  let* predicted_labels := map_result (py_index label_names) topk_items in
  let* expected_label := py_index label_names label in
  if bool_decide (expected_label ∈ predicted_labels)
  then Ok (num_correct + 1,
           PerLabelConfusions.update per_label_confusions expected_label TP 1)
  else
    let per_label_confusions :=
      PerLabelConfusions.update per_label_confusions expected_label FN 1 in
    let* first := py_getitem predicted_labels 0 in
    Ok (num_correct, PerLabelConfusions.update per_label_confusions first FP 1).

Definition topk_count (predictions : list (pyval * pyval * pyval))
    (label_names : list string) : result (Z * PerLabelConfusions.t) :=
  fold_result (topk_count_example label_names) (0, PerLabelConfusions.new) predictions.

Section TopKMetrics.

(** [PerLabelConfusions.compute_metrics] lives outside this file and no
    property below depends on what it computes. *)
Variable compute_metrics : PerLabelConfusions.t → bool → MacroPRF1Metrics.

Definition compute_topk_classification_metrics
    (predictions : list (pyval * pyval * pyval)) (label_names : list string)
    (loss : option Q) (log_per_label_metrics : bool)
  : result ClassificationMetrics :=
  let* ' (num_correct, per_label_confusions) := topk_count predictions label_names in
  let macro_prf1_metrics := compute_metrics per_label_confusions log_per_label_metrics in
  Ok (mkMetrics
        (safe_division num_correct (Z.of_nat (length predictions)))
        macro_prf1_metrics
        (Some ∅)
        None
        None
        loss).

End TopKMetrics.

(** ** The three reporters *)

(** The metric calculators of [pytext.metrics] take the assembled
    predictions, the label names, the loss, [average_precisions] and
    [recall_at_precision_thresholds]. *)
Definition calculator : Type :=
  list (pyval * pyval * pyval) → list string → option Q → bool → list Q →
  result ClassificationMetrics.

Module ClassificationMetricReporter.

Definition add_batch_stats (self : Reporter) (b : Batch) : result Reporter :=
  let a := set_n_batches (acc self) (b_n_batches b) in
  let a := aggregate_preds a (b_preds b) in
  let a := aggregate_targets a (b_targets b) in
  let a := if negb (is_memory_efficient self)
           then aggregate_scores a (b_scores b) else a in
  let a := aggregate_context a (b_context b) in
  let a := match b_loss b with
           | Some l => set_all_loss a (all_loss a ++ [l])
           | None => a
           end in
  match b_m_input b with
  | InputGenerator m_input =>
      let first := tee m_input 1 in
      Ok (set_acc self (set_batch_size a (batch_size a ++ [Z.of_nat (length first)])))
  | InputTuple m_input =>
      let* m0 := py_getitem m_input 0 in
      Ok (set_acc self (set_batch_size a (batch_size a ++ [Z.of_nat (length m0)])))
  end.

(** The list comprehension of [calculate_metric]: the input of the
    single-label metric calculator. *)
Definition label_predictions (self : Reporter) : list (pyval * pyval * pyval) :=
  zip_longest (PList [])
    (all_scores (acc self)) (all_preds (acc self)) (all_targets (acc self)).

Section Calculate.
(** [calculate_loss] of the base class and
    [compute_classification_metrics] of [pytext.metrics] live outside
    this file. *)
Variable calculate_loss : Reporter → result (option Q).
Variable compute_classification_metrics : calculator.

Definition calculate_metric (self : Reporter) : result ClassificationMetrics :=
  let label_predictions := label_predictions self in
  let* loss := calculate_loss self in
  compute_classification_metrics label_predictions (label_names self) loss
    (negb (is_memory_efficient self)) (recall_at_precision_thresholds self).
End Calculate.

Definition get_model_select_metric (self : Reporter) (metrics : ClassificationMetrics)
  : result Q :=
  let* metric :=
    match model_select_metric self with
    | Member ACCURACY => Ok (Some (accuracy metrics))
    | Member ROC_AUC => Ok (roc_auc metrics)
    | Member MCC => Ok (mcc metrics)
    | Member MACRO_F1 => Ok (Some (f1 (macro_scores (macro_prf1_metrics metrics))))
    | Member LABEL_F1 =>
        match target_label self with
        | Some t =>
            match per_label_scores (macro_prf1_metrics metrics) !! t with
            | Some s => Ok (Some (f1 s))
            | None => Raise KeyError
            end
        | None => Raise KeyError
        end
    | Member LABEL_AVG_PRECISION =>
        match per_label_soft_scores metrics with
        | Some soft =>
            match target_label self with
            | Some t =>
                match soft !! t with
                | Some s => Ok (average_precision s)
                | None => Raise KeyError
                end
            | None => Raise KeyError
            end
        | None => Raise TypeError
        end
    | Member LABEL_ROC_AUC =>
        match per_label_soft_scores metrics with
        | Some soft =>
            match target_label self with
            | Some t =>
                match soft !! t with
                | Some s => Ok (soft_roc_auc s)
                | None => Raise KeyError
                end
            | None => Raise KeyError
            end
        | None => Raise TypeError
        end
    | Member NEGATIVE_LOSS =>
        match loss metrics with
        | Some l => Ok (Some (- l)%Q)
        | None => Raise TypeError
        end
    | NotMember _ => Raise ValueError
    end in
  match metric with
  | Some v => Ok v
  | None => Raise AssertionError
  end.

End ClassificationMetricReporter.

Module MultiLabelClassificationMetricReporter.

(** [add_batch_stats] is inherited. *)
Definition add_batch_stats : Reporter → Batch → result Reporter :=
  ClassificationMetricReporter.add_batch_stats.

(** The list comprehension of [calculate_metric]: the input of the
    multi-label metric calculator. *)
Definition label_list_predictions (self : Reporter) : list (pyval * pyval * pyval) :=
  zip3 (all_scores (acc self)) (all_preds (acc self)) (all_targets (acc self)).

Section Calculate.
Variable calculate_loss : Reporter → result (option Q).
Variable compute_multi_label_classification_metrics : calculator.

Definition calculate_metric (self : Reporter) : result ClassificationMetrics :=
  let predictions := label_list_predictions self in
  let* loss := calculate_loss self in
  compute_multi_label_classification_metrics predictions (label_names self) loss
    (negb (is_memory_efficient self)) (recall_at_precision_thresholds self).
End Calculate.

End MultiLabelClassificationMetricReporter.

Module TopKClassificationMetricReporter.

Section Aggregate.
(** [torch.topk], see [topk_function]. *)
Variable torch_topk : topk_function.

Definition aggregate_topkpreds (self : Reporter) (batch_scores : list (list Q))
  : result Reporter :=
  let* ' (values, indices) := torch_topk batch_scores (topk self) in
  Ok (set_acc self
        (set_all_topk_preds (acc self)
           (aggregate_data (all_topk_preds (acc self)) (index_row <$> indices)))).

Definition add_batch_stats (self : Reporter) (b : Batch) : result Reporter :=
  let* self := ClassificationMetricReporter.add_batch_stats self b in
  aggregate_topkpreds self (b_scores b).
End Aggregate.

(** The list comprehension of [calculate_metric]: the input of the
    top-k metric calculator. *)
Definition topk_label_predictions (self : Reporter) : list (pyval * pyval * pyval) :=
  zip_longest (PList [])
    (all_scores (acc self)) (all_topk_preds (acc self)) (all_targets (acc self)).

Section Calculate.
Variable compute_metrics : PerLabelConfusions.t → bool → MacroPRF1Metrics.
Variable calculate_loss : Reporter → result (option Q).

Definition calculate_metric (self : Reporter) : result ClassificationMetrics :=
  let topk_label_predictions := topk_label_predictions self in
  let* loss := calculate_loss self in
  compute_topk_classification_metrics compute_metrics
    topk_label_predictions (label_names self) loss true.
End Calculate.

End TopKClassificationMetricReporter.

(** A pass: the batches of one stage, fed in order to a reporter whose
    state has been reset. *)
Definition run_pass (add_batch_stats : Reporter → Batch → result Reporter)
    (self : Reporter) (batches : list Batch) : result Reporter :=
  fold_result add_batch_stats (set_acc self _reset) batches.

(** Modelled from the spec: [calculate_loss] of the base class, the
    unweighted arithmetic mean of the recorded per-batch losses, absent
    when none was recorded.  It only serves the worked examples: the
    properties below are stated for any [calculate_loss]. *)
Definition mean_loss (self : Reporter) : result (option Q) :=
  match all_loss (acc self) with
  | [] => Ok None
  | l => Ok (Some (foldr Qplus 0%Q l / inject_Z (Z.of_nat (length l)))%Q)
  end.

(** ** Reference notions used to state the properties *)

(** The model-selection metrics that need a target label, and those that
    are defined for two labels only. *)
Definition needs_target_label (m : metric_id) : Prop :=
  m = Member LABEL_F1 ∨ m = Member LABEL_AVG_PRECISION ∨ m = Member LABEL_ROC_AUC.

Definition binary_only (m : metric_id) : Prop :=
  m = Member ROC_AUC ∨ m = Member MCC.

Definition target_label_in_catalogue (target : option string) (names : list string)
  : Prop :=
  ∃ t, target = Some t ∧ t ∈ names.

Global Instance target_label_in_catalogue_dec target names :
  Decision (target_label_in_catalogue target names).
Proof.
  destruct target as [t|].
  - destruct (decide (t ∈ names)) as [Hin | Hnin].
    + left. exists t. done.
    + right. intros (t' & [= <-] & ?). done.
  - right. intros (t' & ? & ?). done.
Defined.

(** The value the report holds for a metric identifier, following the
    spec's description of the model-selection extractor; [None] when it is
    absent from the report. *)
Definition resolved_value (metric : ComparableClassificationMetric)
    (target : option string) (metrics : ClassificationMetrics) : option Q :=
  match metric with
  | ACCURACY => Some (accuracy metrics)
  | ROC_AUC => roc_auc metrics
  | MCC => mcc metrics
  | MACRO_F1 => Some (f1 (macro_scores (macro_prf1_metrics metrics)))
  | LABEL_F1 =>
      t ← target;
      s ← per_label_scores (macro_prf1_metrics metrics) !! t;
      Some (f1 s)
  | LABEL_AVG_PRECISION =>
      t ← target;
      soft ← per_label_soft_scores metrics;
      s ← soft !! t;
      average_precision s
  | LABEL_ROC_AUC =>
      t ← target;
      soft ← per_label_soft_scores metrics;
      s ← soft !! t;
      soft_roc_auc s
  | NEGATIVE_LOSS => Qopp <$> loss metrics
  end.

(** The soft-score part of a report is absent. *)
Definition no_soft_metrics (r : ClassificationMetrics) : Prop :=
  per_label_soft_scores r = Some ∅ ∧ mcc r = None ∧ roc_auc r = None.

(** The state [add_batch_stats] has built when it reaches the model
    input, and the batch size it then records. *)
Definition aggregated (self : Reporter) (b : Batch) : Accumulation :=
  let a := set_n_batches (acc self) (b_n_batches b) in
  let a := aggregate_preds a (b_preds b) in
  let a := aggregate_targets a (b_targets b) in
  let a := if negb (is_memory_efficient self)
           then aggregate_scores a (b_scores b) else a in
  let a := aggregate_context a (b_context b) in
  match b_loss b with
  | Some l => set_all_loss a (all_loss a ++ [l])
  | None => a
  end.

Definition recorded_batch_size (m_input : ModelInput) : result Z :=
  match m_input with
  | InputGenerator _ => Ok 1
  | InputTuple [] => Raise IndexError
  | InputTuple (m0 :: _) => Ok (Z.of_nat (length m0))
  end.

(** A top-k prediction as the data model has it: the scores, the top-k
    label indices in decreasing order of score, the expected index. *)
Record TopKExample : Type := mkTopKExample {
  ex_scores : pyval;
  ex_topk : list Z;
  ex_expected : Z
}.

(** The [LabelTopKPrediction] tuple of such a prediction. *)
Definition LabelTopKPrediction (e : TopKExample) : pyval * pyval * pyval :=
  (ex_scores e, index_row (ex_topk e), PInt (ex_expected e)).

(** An index is a valid offset into the catalogue. *)
Definition in_catalogue (names : list string) (i : Z) : bool :=
  (0 <=? i) && (i <? Z.of_nat (length names)).

(** The top-k list is not empty and every index is a valid offset. *)
Definition well_formed (names : list string) (e : TopKExample) : bool :=
  forallb (in_catalogue names) (ex_expected e :: ex_topk e)
  && negb (bool_decide (ex_topk e = [])).

Definition label_name (names : list string) (i : Z) : string :=
  default "" (names !! Z.to_nat i).

(** The expected label is among the labels of the top-k list. *)
Definition is_hit (names : list string) (e : TopKExample) : bool :=
  bool_decide (label_name names (ex_expected e) ∈ label_name names <$> ex_topk e).

(** The label of the first, highest-scoring, element of the top-k list. *)
Definition first_label (names : list string) (e : TopKExample) : string :=
  label_name names (hd 0 (ex_topk e)).

(** The confusion entries the single-attribution rule gives a prediction:
    a hit is one TP on the expected label; a miss is one FN on the
    expected label and one FP on the first label of the top-k list. *)
Definition attributed (names : list string) (l : string) (o : Outcome)
    (e : TopKExample) : bool :=
  match o with
  | TP => is_hit names e && bool_decide (label_name names (ex_expected e) = l)
  | FN => negb (is_hit names e) && bool_decide (label_name names (ex_expected e) = l)
  | FP => negb (is_hit names e) && bool_decide (first_label names e = l)
  | TN => false
  end.

Definition count_where {A : Type} (P : A → bool) (l : list A) : Z :=
  foldr (λ x n, (if P x then 1 else 0) + n) 0 l.

Global Instance Outcome_eq_dec : EqDecision Outcome.
Proof. solve_decision. Defined.

(** [a] may come before [b] in decreasing order of score. *)
Definition score_ge (a b : Z * Q) : Prop := (snd b <= snd a)%Q.

(** [idxs] are [k] distinct positions of [row] whose scores are at least
    the score of every other position. *)
Definition k_highest (k : Z) (row : list Q) (idxs : list Z) : Prop :=
  Z.of_nat (length idxs) = k
  ∧ NoDup idxs
  ∧ (∀ i, i ∈ idxs → 0 ≤ i < Z.of_nat (length row))
  ∧ (∀ i j vi vj,
       i ∈ idxs → Z.of_nat j ∉ idxs →
       row !! Z.to_nat i = Some vi → row !! j = Some vj →
       (vj <= vi)%Q).

(** What [torch.topk] promises when it returns: for every row of the
    score matrix, the positions of [k] highest scores.  Nothing is said
    about which of several equal scores is taken. *)
Definition selects_k_highest (torch_topk : topk_function) : Prop :=
  ∀ batch_scores k values indices,
    torch_topk batch_scores k = Ok (values, indices) →
    Forall2 (k_highest k) batch_scores indices.

(** [torch.topk] raises its "selected index k out of range" error when a
    row has fewer than [k] scores. *)
Definition rejects_short_rows (torch_topk : topk_function) : Prop :=
  ∀ batch_scores k row,
    row ∈ batch_scores → Z.of_nat (length row) < k →
    torch_topk batch_scores k = Raise RuntimeError.

(** ** Worked examples *)

(** The report of the spec's examples: accuracy 3/4, loss 0.4, per-label
    scores for "a" only, nothing computed from the scores. *)
Definition example_report : ClassificationMetrics :=
  mkMetrics (3 # 4)
    (mkMacro {[ "a" := mkPRF1 1 (1 # 2) (2 # 3) ]} (mkPRF1 1 (1 # 2) (2 # 3)))
    None None None (Some (4 # 10)).

Definition example_reporter (m : metric_id) (target : option string) : Reporter :=
  __init__ ["a"; "b"] m target ["text"] [] [] true 3.

(** Two batches over the catalogue a, b, c: two examples, then one. *)
Definition example_batch_1 : Batch :=
  mkBatch 1 [PInt 0; PInt 2] [PInt 0; PInt 0]
    [[7 # 10; 2 # 10; 1 # 10]; [1 # 10; 3 # 10; 6 # 10]]%Q
    (Some (4 # 10)%Q)
    (InputTuple [[PInt 11; PInt 12]; [PInt 1; PInt 1]])
    [("text", CtxSequence [PInt 11; PInt 12]); ("stage", CtxOther)].

Definition example_batch_2 : Batch :=
  mkBatch 2 [PInt 1] [PInt 1]
    [[2 # 10; 5 # 10; 3 # 10]]%Q
    None
    (InputTuple [[PInt 13]; [PInt 1]])
    [("text", CtxSequence [PInt 13])].

Definition example_self (mem : bool) : Reporter :=
  __init__ ["a"; "b"; "c"] (Member ACCURACY) None ["text"] [] [] mem 2.

(** One multi-label batch of one example over the catalogue a, b, c:
    predicted {a, c}, expected {a, b}. *)
Definition multi_label_batch : Batch :=
  mkBatch 1
    [PList [PInt 1; PInt 0; PInt 1]]
    [PList [PInt 0; PInt 1; PInt (-1)]]
    [[9 # 10; 2 # 10; 8 # 10]]%Q
    (Some (3 # 10)%Q)
    (InputTuple [[PInt 21]])
    [].

(** The spec's example with k = 3 over the catalogue a, b, c, d: the
    expected label is the third of the top-k list, then it is absent. *)
Definition example_names : list string := ["a"; "b"; "c"; "d"].

Definition example_topk_predictions : list TopKExample :=
  [ mkTopKExample (PList []) [0; 1; 2] 2;
    mkTopKExample (PList []) [0; 1; 2] 3 ].

(** ** The other methods of the reporters *)

(** [v == n] for an integer [n]: an integer or a float equal to it; a
    list never is. *)
Definition py_eq_int (v : pyval) (n : Z) : bool :=
  match v with
  | PInt z => z =? n
  | PFloat q => Qeq_bool q (inject_Z n)
  | PList _ => false
  end.

(** [enumerate(l)] *)
Definition enumerate {A : Type} (l : list A) : list (Z * A) :=
  imap (λ i x, (Z.of_nat i, x)) l.

Module SingleLabelReport.

(** [predictions_to_report]: the name of every accumulated prediction. *)
Definition predictions_to_report (self : Reporter) : result (list string) :=
  map_result (py_index (label_names self)) (all_preds (acc self)).

(** [targets_to_report]: the name of every accumulated target. *)
Definition targets_to_report (self : Reporter) : result (list string) :=
  map_result (py_index (label_names self)) (all_targets (acc self)).

(** [get_meta]: the one entry of the dictionary, under
    [META_LABEL_NAMES]. *)
Definition get_meta (self : Reporter) : gmap string (list string) :=
  {[ "label_names" := label_names self ]}.

End SingleLabelReport.

Module MultiLabelReport.

(** The inner comprehension of [predictions_to_report]: the names at the
    positions whose indicator equals 1. *)
Definition predicted_names (names : list string) (predictions : pyval)
  : result (list string) :=
  let* items := py_iter predictions in
  map_result (λ ip, py_getitem names ip.1)
    (filter (λ ip, py_eq_int ip.2 1 = true) (enumerate items)).

Definition predictions_to_report (self : Reporter) : result (list (list string)) :=
  map_result (predicted_names (label_names self)) (all_preds (acc self)).

(** The inner comprehension of [targets_to_report]: the names of the
    targets other than the sentinel -1. *)
Definition target_names (names : list string) (targets : pyval)
  : result (list string) :=
  let* items := py_iter targets in
  map_result (py_index names)
    (filter (λ target, py_eq_int target (-1) = false) items).

Definition targets_to_report (self : Reporter) : result (list (list string)) :=
  map_result (target_names (label_names self)) (all_targets (acc self)).

End MultiLabelReport.

(** What [from_config] reads of a tensorizer and of the metadata: the
    vocabulary of the label tensorizer, and [meta.target.vocab.itos]. *)
Record Tensorizer : Type := mkTensorizer {
  vocab : list string
}.

Record CommonMetadata : Type := mkCommonMetadata {
  target_vocab_itos : list string
}.

Definition set_text_column_names (config : Config) (v : list string) : Config :=
  mkConfig (cfg_model_select_metric config) (cfg_target_label config) v
    (cfg_additional_column_names config)
    (cfg_recall_at_precision_thresholds config) (cfg_is_memory_efficient config).

(** What a call of [from_config] leaves: the [AttributeError] of reading
    [meta.target] when no metadata was given (an exception that none of
    the methods above raises), or the configuration object as the call
    left it together with what [from_config_and_label_names] returned or
    raised. *)
Inductive from_config_outcome : Type :=
  | AttributeError_no_metadata
  | Called (config : Config) (r : result Reporter).

(** [from_config]: [if tensorizers] is false for [None] and for the empty
    dictionary. *)
Definition from_config (config : Config) (meta : option CommonMetadata)
    (tensorizers : option (gmap string Tensorizer)) : from_config_outcome :=
  match tensorizers with
  | Some ts =>
      if bool_decide (ts = ∅)
      then match meta with
           | Some m =>
               let config := set_text_column_names config [] in
               Called config (from_config_and_label_names config (target_vocab_itos m))
           | None => AttributeError_no_metadata
           end
      else match ts !! "labels" with
           | Some t => Called config (from_config_and_label_names config (vocab t))
           | None => Called config (Raise KeyError)
           end
  | None =>
      match meta with
      | Some m =>
          let config := set_text_column_names config [] in
          Called config (from_config_and_label_names config (target_vocab_itos m))
      | None => AttributeError_no_metadata
      end
  end.

(** [sep.join(parts)] *)
Fixpoint join (sep : string) (parts : list string) : string :=
  match parts with
  | [] => ""
  | [p] => p
  | p :: rest => String.append p (String.append sep (join sep rest))
  end.

Section BatchContext.

(** The values of the raw input rows, and [str] on them. *)
Variable raw : Type.
Variable py_str : raw → string.

(** An entry of the context of a batch: the joined texts, or the raw
    values of a column, one per row. *)
Inductive ContextColumn : Type :=
  | TextColumn (texts : list string)
  | RawColumn (values : list raw).

(** [row[column_name]] on a dictionary. *)
Definition row_get (row : gmap string raw) (column_name : string) : result raw :=
  match row !! column_name with
  | Some v => Ok v
  | None => Raise KeyError
  end.

(** The text of one row: its text columns joined by " | ". *)
Definition row_text (columns : list string) (row : gmap string raw) : result string :=
  let* parts := map_result (λ column_name,
                              let* v := row_get row column_name in
                              Ok (py_str v)) columns in
  Ok (join " | " parts).

(** [batch_context]; [super_context] is what the base class's
    [batch_context] (not in this file) returned. *)
Definition batch_context (super_context : gmap string ContextColumn)
    (self : Reporter) (raw_batch : list (gmap string raw))
  : result (gmap string ContextColumn) :=
  let context := super_context in
  let* texts := map_result (row_text (text_column_names self)) raw_batch in
  let context := <["text" := TextColumn texts]> context in
  if (0 <? length (additional_column_names self))%nat
  then fold_result
         (λ context additional_colname,
            let* values := map_result (λ row, row_get row additional_colname)
                             raw_batch in
            Ok (<[additional_colname := RawColumn values]> context))
         context (additional_column_names self)
  else Ok context.

End BatchContext.

(** ** Reference notions for the other methods *)

(** The position of a label in the catalogue. *)
Fixpoint label_index (names : list string) (name : string) : Z :=
  match names with
  | [] => 0
  | n :: names' => if bool_decide (n = name) then 0 else 1 + label_index names' name
  end.

(** The sum of one counter over the labels of the tracker. *)
Definition total (plc : PerLabelConfusions.t) (o : Outcome) : Z :=
  map_fold (λ _ c n, confusion_get c o + n) 0 plc.

(** A batch brings as many predictions and targets as score rows. *)
Definition aligned (b : Batch) : Prop :=
  length (b_preds b) = length (b_scores b)
  ∧ length (b_targets b) = length (b_scores b).

(** A row of a raw batch has every column a reporter reads. *)
Definition has_columns {raw : Type} (self : Reporter) (row : gmap string raw) : Prop :=
  ∀ c, c ∈ text_column_names self ++ additional_column_names self →
       is_Some (row !! c).

(** A reporter with its score buffer emptied and its flag cleared: what
    is left to compare between the two memory modes. *)
Definition without_scores (s : Reporter) : Reporter :=
  set_is_memory_efficient (set_acc s (set_all_scores (acc s) [])) false.

(** A single-label reporter over a, b, c that has accumulated three
    predictions and three targets, the last target counting from the
    end of the catalogue. *)
Definition example_reported : Reporter :=
  set_acc (example_self false)
    (set_all_targets (set_all_preds _reset [PInt 0; PInt 2; PInt 1])
       [PInt 0; PInt 1; PInt (-1)]).

(** An entry of a buffer names a label: it is an integer that counts
    from the front of the catalogue, or, when negative, from its back. *)
Definition names_label (names : list string) (v : pyval) (name : string) : Prop :=
  ∃ i, v = PInt i
       ∧ - Z.of_nat (length names) ≤ i < Z.of_nat (length names)
       ∧ names !! Z.to_nat (i `mod` Z.of_nat (length names)) = Some name.

(** The values a row holds for a list of columns. *)
Definition row_values {raw : Type} (row : gmap string raw) (columns : list string)
    (values : list raw) : Prop :=
  Forall2 (λ c v, row !! c = Some v) columns values.

(** Two raw rows with author, title and body, for the worked examples. *)
Definition example_rows : list (gmap string string) :=
  [ {[ "title" := "t1"; "body" := "b1"; "author" := "a1" ]};
    {[ "title" := "t2"; "body" := "b2"; "author" := "a2" ]} ].

Definition example_text_reporter : Reporter :=
  __init__ ["a"; "b"] (Member ACCURACY) None ["title"; "body"] ["author"] [] false 3.

(** A label tensorizer over a, b and metadata over x, y, z. *)
Definition example_tensorizers : gmap string Tensorizer :=
  {[ "labels" := mkTensorizer ["a"; "b"]; "tokens" := mkTensorizer ["the"] ]}.

Definition example_meta : CommonMetadata := mkCommonMetadata ["x"; "y"; "z"].

Definition example_config : Config :=
  mkConfig (Member MCC) None ["title"; "body"] [] [] false.

(** A top-k reporter that has two targets and one top-k list. *)
Definition example_short_topk : Reporter :=
  set_acc (example_self true)
    (set_all_topk_preds (set_all_targets _reset [PInt 0; PInt 1]) [index_row [0; 1]]).

(** A second report, with a higher loss than the first. *)
Definition example_report_2 : ClassificationMetrics :=
  mkMetrics (3 # 4)
    (mkMacro {[ "a" := mkPRF1 1 (1 # 2) (2 # 3) ]} (mkPRF1 1 (1 # 2) (2 # 3)))
    None None None (Some (6 # 10)).

(** ** Configuration-time validation *)

Lemma metric_in_spec (x : metric_id) (ms : list ComparableClassificationMetric) :
  metric_in x ms = true ↔ ∃ m, x = Member m ∧ m ∈ ms.
Proof.
  unfold metric_in. rewrite bool_decide_eq_true, list_elem_of_fmap.
  naive_solver.
Qed.

Lemma needs_target_label_spec (x : metric_id) :
  metric_in x [LABEL_F1; LABEL_AVG_PRECISION; LABEL_ROC_AUC] = true
  ↔ needs_target_label x.
Proof.
  rewrite metric_in_spec. unfold needs_target_label. split.
  - intros (m & -> & Hm). rewrite !elem_of_cons, elem_of_nil in Hm.
    destruct Hm as [-> | [-> | [-> | []]]]; auto.
  - intros [-> | [-> | ->]]; eexists; split; try reflexivity;
      rewrite !elem_of_cons; auto.
Qed.

Lemma binary_only_spec (x : metric_id) :
  metric_in x [ROC_AUC; MCC] = true ↔ binary_only x.
Proof.
  rewrite metric_in_spec. unfold binary_only. split.
  - intros (m & -> & Hm). rewrite !elem_of_cons, elem_of_nil in Hm.
    destruct Hm as [-> | [-> | []]]; auto.
  - intros [-> | ->]; eexists; split; try reflexivity;
      rewrite !elem_of_cons; auto.
Qed.

Lemma target_assertions_pass (target : option string) (names : list string) :
  target_label_in_catalogue target names →
  (let* _ := py_assert (bool_decide (target ≠ None)) in
   py_assert (bool_decide (target ∈ Some <$> names))) = Ok ().
Proof.
  intros (t & -> & Hin).
  rewrite (bool_decide_eq_true_2 (Some t ≠ None)) by done. simpl.
  rewrite bool_decide_eq_true_2; [done |].
  apply list_elem_of_fmap. eauto.
Qed.

Lemma target_assertions_fail (target : option string) (names : list string) :
  ¬ target_label_in_catalogue target names →
  (let* _ := py_assert (bool_decide (target ≠ None)) in
   py_assert (bool_decide (target ∈ Some <$> names))) = Raise AssertionError.
Proof.
  intros Hno. destruct target as [t|].
  - rewrite (bool_decide_eq_true_2 (Some t ≠ None)) by done. simpl.
    rewrite bool_decide_eq_false_2; [done |].
    intros (t' & [= <-] & ?)%list_elem_of_fmap.
    apply Hno. exists t. done.
  - rewrite (bool_decide_eq_false_2 (None ≠ None)) by (intros ?; done). done.
Qed.

Lemma length_assertion (names : list string) :
  py_assert (bool_decide (length names = 2%nat))
  = if decide (length names = 2%nat) then Ok () else Raise AssertionError.
Proof. unfold py_assert. by case_bool_decide; case_decide. Qed.

(** C2 -- [from_config_and_label_names] fails with an assertion error when
    a per-label selection metric comes without a target label of the
    catalogue, and when [roc_auc] or [mcc] comes with a catalogue that has
    not exactly two labels; on every other configuration it builds the
    reporter with the configured values and a fresh pass. *)
Theorem from_config_and_label_names_validates
    (config : Config) (names : list string) :
  (needs_target_label (cfg_model_select_metric config) →
   ¬ target_label_in_catalogue (cfg_target_label config) names →
   from_config_and_label_names config names = Raise AssertionError)
  ∧ (binary_only (cfg_model_select_metric config) →
     length names ≠ 2%nat →
     from_config_and_label_names config names = Raise AssertionError)
  ∧ ((needs_target_label (cfg_model_select_metric config) →
      target_label_in_catalogue (cfg_target_label config) names) →
     (binary_only (cfg_model_select_metric config) → length names = 2%nat) →
     from_config_and_label_names config names
     = Ok (mkReporter names (cfg_model_select_metric config)
             (cfg_target_label config) (cfg_text_column_names config)
             (cfg_additional_column_names config)
             (cfg_recall_at_precision_thresholds config)
             (cfg_is_memory_efficient config) 3 _reset)).
Proof.
  unfold from_config_and_label_names.
  pose proof (needs_target_label_spec (cfg_model_select_metric config)) as Hn.
  pose proof (binary_only_spec (cfg_model_select_metric config)) as Hb.
  rewrite length_assertion.
  split; [| split].
  - intros Hneed Hno. apply Hn in Hneed as ->.
    by rewrite target_assertions_fail.
  - intros Hbin Hlen. apply Hb in Hbin as ->.
    destruct (metric_in _ [LABEL_F1; _; _]).
    + destruct (decide (target_label_in_catalogue (cfg_target_label config) names)).
      * rewrite target_assertions_pass by done. simpl. by case_decide.
      * by rewrite target_assertions_fail.
    + simpl. by case_decide.
  - intros Htarget Hlen.
    destruct (metric_in _ [LABEL_F1; _; _]).
    + rewrite target_assertions_pass by (apply Htarget, Hn; done). simpl.
      destruct (metric_in _ [ROC_AUC; _]); simpl; [| done].
      rewrite decide_True by (apply Hlen, Hb; done). done.
    + simpl. destruct (metric_in _ [ROC_AUC; _]); simpl; [| done].
      rewrite decide_True by (apply Hlen, Hb; done). done.
Qed.

Example from_config_label_f1_without_target :
  from_config_and_label_names
    (mkConfig (Member LABEL_F1) None ["text"] [] [] false) ["a"; "b"]
  = Raise AssertionError.
Proof. reflexivity. Qed.

Example from_config_label_f1_target_not_in_catalogue :
  from_config_and_label_names
    (mkConfig (Member LABEL_F1) (Some "c") ["text"] [] [] false) ["a"; "b"]
  = Raise AssertionError.
Proof. reflexivity. Qed.

Example from_config_mcc_three_labels :
  from_config_and_label_names
    (mkConfig (Member MCC) None ["text"] [] [] false) ["a"; "b"; "c"]
  = Raise AssertionError.
Proof. reflexivity. Qed.

Example from_config_label_roc_auc_valid :
  from_config_and_label_names
    (mkConfig (Member LABEL_ROC_AUC) (Some "b") ["text"] [] [] true) ["a"; "b"; "c"]
  = Ok (mkReporter ["a"; "b"; "c"] (Member LABEL_ROC_AUC) (Some "b")
          ["text"] [] [] true 3 _reset).
Proof. reflexivity. Qed.

(** ** The top-k report *)

Lemma compute_topk_no_soft_metrics
    (compute_metrics : PerLabelConfusions.t → bool → MacroPRF1Metrics)
    (predictions : list (pyval * pyval * pyval)) (names : list string)
    (loss : option Q) (log : bool) (r : ClassificationMetrics) :
  compute_topk_classification_metrics compute_metrics predictions names loss log = Ok r →
  no_soft_metrics r.
Proof.
  unfold compute_topk_classification_metrics.
  destruct (topk_count predictions names) as [[nc plc] | e]; simpl; [| done].
  intros [= <-]. done.
Qed.

(** C6 -- whatever the predictions, and whatever the memory-efficiency
    flag of the reporter, a report returned by
    [compute_topk_classification_metrics] has an empty table of per-label
    soft scores, no MCC and no overall ROC-AUC. *)
Theorem topk_report_has_no_soft_metrics
    (compute_metrics : PerLabelConfusions.t → bool → MacroPRF1Metrics)
    (calculate_loss : Reporter → result (option Q)) :
  (∀ predictions names loss log r,
     compute_topk_classification_metrics compute_metrics predictions names loss log
     = Ok r →
     no_soft_metrics r)
  ∧ (∀ self flag r,
       TopKClassificationMetricReporter.calculate_metric compute_metrics calculate_loss
         (set_is_memory_efficient self flag) = Ok r →
       no_soft_metrics r).
Proof.
  split.
  - apply compute_topk_no_soft_metrics.
  - intros self flag r.
    unfold TopKClassificationMetricReporter.calculate_metric.
    destruct (calculate_loss _) as [loss | e]; simpl; [| done].
    apply compute_topk_no_soft_metrics.
Qed.

(** C9 -- on the empty prediction list the top-k metric calculator
    returns a report, and its accuracy is zero: the division of zero
    correct predictions by zero predictions is [safe_division]'s zero. *)
Theorem topk_empty_predictions_accuracy_zero
    (compute_metrics : PerLabelConfusions.t → bool → MacroPRF1Metrics)
    (names : list string) (loss : option Q) (log : bool) :
  ∃ r, compute_topk_classification_metrics compute_metrics [] names loss log = Ok r
       ∧ accuracy r = 0%Q.
Proof. eexists. split; reflexivity. Qed.

Lemma safe_division_zero_denominator (n : Z) : safe_division n 0 = 0%Q.
Proof. reflexivity. Qed.

(** ** Model-selection extraction *)

(** C7 -- [get_model_select_metric] returns the value the report holds
    for the configured metric when there is one, and raises an exception
    when that value is absent; there is no third outcome. *)
Theorem get_model_select_metric_faults_iff_absent
    (self : Reporter) (m : ComparableClassificationMetric)
    (metrics : ClassificationMetrics) :
  model_select_metric self = Member m →
  match resolved_value m (target_label self) metrics with
  | Some v =>
      ClassificationMetricReporter.get_model_select_metric self metrics = Ok v
  | None =>
      ∃ e, ClassificationMetricReporter.get_model_select_metric self metrics
           = Raise e
  end.
Proof.
  intros Hm. unfold ClassificationMetricReporter.get_model_select_metric.
  rewrite Hm.
  destruct m; simpl.
  - done.
  - destruct (roc_auc metrics); simpl; eauto.
  - destruct (mcc metrics); simpl; eauto.
  - done.
  - destruct (target_label self) as [t|]; simpl; [| eauto].
    destruct (_ !! t); simpl; eauto.
  - destruct (target_label self) as [t|]; simpl;
      destruct (per_label_soft_scores metrics) as [soft|]; simpl; eauto.
    destruct (soft !! t) as [s|]; simpl; [| eauto].
    destruct (average_precision s); simpl; eauto.
  - destruct (target_label self) as [t|]; simpl;
      destruct (per_label_soft_scores metrics) as [soft|]; simpl; eauto.
    destruct (soft !! t) as [s|]; simpl; [| eauto].
    destruct (soft_roc_auc s); simpl; eauto.
  - destruct (loss metrics); simpl; eauto.
Qed.

Lemma get_model_select_metric_faults_iff_absent_witness :
  ClassificationMetricReporter.get_model_select_metric
    (example_reporter (Member NEGATIVE_LOSS) None) example_report
  = Ok (- (4 # 10))%Q
  ∧ (∃ e, ClassificationMetricReporter.get_model_select_metric
            (example_reporter (Member LABEL_F1) (Some "b")) example_report
          = Raise e)
  ∧ (∃ e, ClassificationMetricReporter.get_model_select_metric
            (example_reporter (Member ROC_AUC) None) example_report
          = Raise e).
Proof.
  split; [| split].
  - exact (get_model_select_metric_faults_iff_absent
             (example_reporter (Member NEGATIVE_LOSS) None) NEGATIVE_LOSS
             example_report eq_refl).
  - exact (get_model_select_metric_faults_iff_absent
             (example_reporter (Member LABEL_F1) (Some "b")) LABEL_F1
             example_report eq_refl).
  - exact (get_model_select_metric_faults_iff_absent
             (example_reporter (Member ROC_AUC) None) ROC_AUC
             example_report eq_refl).
Defined.

Example get_model_select_metric_label_f1_missing :
  ClassificationMetricReporter.get_model_select_metric
    (example_reporter (Member LABEL_F1) (Some "b")) example_report
  = Raise KeyError.
Proof. reflexivity. Qed.

Example get_model_select_metric_roc_auc_absent :
  ClassificationMetricReporter.get_model_select_metric
    (example_reporter (Member ROC_AUC) None) example_report
  = Raise AssertionError.
Proof. reflexivity. Qed.

(** ** Unknown metric identifiers *)

(** What a successful [from_config_and_label_names] returns, and what
    its success tells about the configuration. *)
Lemma from_config_and_label_names_built
    (config : Config) (names : list string) (r : Reporter) :
  from_config_and_label_names config names = Ok r →
  r = __init__ names (cfg_model_select_metric config) (cfg_target_label config)
        (cfg_text_column_names config) (cfg_additional_column_names config)
        (cfg_recall_at_precision_thresholds config)
        (cfg_is_memory_efficient config) TopKConfig_topk
  ∧ (needs_target_label (cfg_model_select_metric config) →
     target_label_in_catalogue (cfg_target_label config) names)
  ∧ (binary_only (cfg_model_select_metric config) → length names = 2%nat).
Proof.
  unfold from_config_and_label_names.
  pose proof (needs_target_label_spec (cfg_model_select_metric config)) as Hn.
  pose proof (binary_only_spec (cfg_model_select_metric config)) as Hb.
  rewrite length_assertion.
  destruct (metric_in _ [LABEL_F1; _; _]).
  - destruct (decide (target_label_in_catalogue (cfg_target_label config) names))
      as [Hin | Hnin].
    + rewrite target_assertions_pass by done. cbn [bind].
      destruct (metric_in _ [ROC_AUC; _]).
      * case_decide; cbn [bind]; [| done]. intros [= <-]. done.
      * cbn [bind]. intros [= <-]. repeat split; [done |].
        intros Hbin. apply Hb in Hbin. done.
    + by rewrite target_assertions_fail.
  - cbn [bind]. destruct (metric_in _ [ROC_AUC; _]).
    + case_decide; cbn [bind]; [| done]. intros [= <-].
      repeat split; [| done]. intros Hneed. apply Hn in Hneed. done.
    + cbn [bind]. intros [= <-]. repeat split.
      * intros Hneed. apply Hn in Hneed. done.
      * intros Hbin. apply Hb in Hbin. done.
Qed.

(** The two failures of [from_config_and_label_names]. *)
Lemma from_config_and_label_names_rejects
    (config : Config) (names : list string) :
  (needs_target_label (cfg_model_select_metric config) →
   ¬ target_label_in_catalogue (cfg_target_label config) names →
   from_config_and_label_names config names = Raise AssertionError)
  ∧ (binary_only (cfg_model_select_metric config) →
     length names ≠ 2%nat →
     from_config_and_label_names config names = Raise AssertionError).
Proof.
  unfold from_config_and_label_names.
  pose proof (needs_target_label_spec (cfg_model_select_metric config)) as Hn.
  pose proof (binary_only_spec (cfg_model_select_metric config)) as Hb.
  rewrite length_assertion.
  split.
  - intros Hneed Hno. apply Hn in Hneed as ->.
    by rewrite target_assertions_fail.
  - intros Hbin Hlen. apply Hb in Hbin as ->.
    destruct (metric_in _ [LABEL_F1; _; _]).
    + destruct (decide (target_label_in_catalogue (cfg_target_label config) names)).
      * rewrite target_assertions_pass by done. simpl. by case_decide.
      * by rewrite target_assertions_fail.
    + simpl. by case_decide.
Qed.

(** An object that is no member of the enumeration, when it is handed to
    [from_config_and_label_names] directly, passes its assertions; the
    [else] branch of [get_model_select_metric] then rejects it on every
    report.  A configuration that went through the loader holds no such
    object, see below. *)
Lemma non_member_reaches_else_branch
    (repr : string) (target : option string) (text additional : list string)
    (thresholds : list Q) (mem : bool) (names : list string)
    (metrics : ClassificationMetrics) :
  ∃ r, from_config_and_label_names
         (mkConfig (NotMember repr) target text additional thresholds mem) names
       = Ok r
       ∧ model_select_metric r = NotMember repr
       ∧ ClassificationMetricReporter.get_model_select_metric r metrics
         = Raise ValueError.
Proof. eexists. repeat split. Qed.

Lemma enum_from_value_Some (identifier : string) (m : ComparableClassificationMetric) :
  enum_from_value identifier = Some m → metric_value m = identifier.
Proof.
  unfold enum_from_value. intros [_ Hm]%find_some.
  by apply bool_decide_eq_true in Hm.
Qed.

Lemma enum_from_value_None (identifier : string) :
  enum_from_value identifier = None ↔ ∀ m, metric_value m ≠ identifier.
Proof.
  split.
  - unfold enum_from_value. intros Hnone m Hm.
    assert (In m metric_members) as Hin by (destruct m; simpl; tauto).
    pose proof (find_none _ _ Hnone m Hin) as Hf. simpl in Hf.
    by apply bool_decide_eq_false in Hf.
  - intros Hno. destruct (enum_from_value identifier) as [m |] eqn:E; [| done].
    by apply enum_from_value_Some, Hno in E.
Qed.

Lemma enum_from_value_member (m : ComparableClassificationMetric) :
  enum_from_value (metric_value m) = Some m.
Proof. by destruct m. Qed.

(** A reporter whose metric is a member of the enumeration never reaches
    the [else] branch of [get_model_select_metric]. *)
Lemma member_never_unknown (r : Reporter) (m : ComparableClassificationMetric)
    (metrics : ClassificationMetrics) :
  model_select_metric r = Member m →
  ClassificationMetricReporter.get_model_select_metric r metrics ≠ Raise ValueError.
Proof.
  intros Hm. unfold ClassificationMetricReporter.get_model_select_metric.
  rewrite Hm.
  destruct m; simpl;
    repeat match goal with
           | |- context [match ?x with _ => _ end] => destruct x; simpl
           end;
    done.
Qed.

(** C8 -- requesting a model-selection metric by an identifier that is
    the value of no member of the enumeration fails at configuration
    time, whatever the rest of the request and the label catalogue, and no
    reporter is built; so do a per-label metric without a target label of
    the catalogue and a two-class metric with a catalogue that has not
    exactly two labels.  A reporter that configuration builds holds the
    member whose value was requested, and [get_model_select_metric] never
    answers it with the [ValueError] of its [else] branch: an unknown
    identifier cannot wait until extraction. *)
Theorem unknown_metric_rejected_at_configuration
    (requested : RequestedConfig) (names : list string) :
  ((∀ m, metric_value m ≠ req_model_select_metric requested) →
   configure requested names
   = inl (EnumTypeError (req_model_select_metric requested)))
  ∧ (∀ m, metric_value m = req_model_select_metric requested →
       (needs_target_label (Member m) →
        ¬ target_label_in_catalogue (req_target_label requested) names →
        configure requested names = inl (ConstructionError AssertionError))
       ∧ (binary_only (Member m) → length names ≠ 2%nat →
          configure requested names = inl (ConstructionError AssertionError)))
  ∧ (∀ r, configure requested names = inr r →
       ∃ m, metric_value m = req_model_select_metric requested
            ∧ model_select_metric r = Member m
            ∧ ∀ metrics,
                ClassificationMetricReporter.get_model_select_metric r metrics
                ≠ Raise ValueError).
Proof.
  unfold configure. split; [| split].
  - intros Hunknown. by apply enum_from_value_None in Hunknown as ->.
  - intros m <-. rewrite enum_from_value_member.
    set (config := mkConfig _ _ _ _ _ _).
    destruct (from_config_and_label_names_rejects config names)
      as (Htarget & Hbinary).
    split.
    + intros Hneed Hno. by rewrite (Htarget Hneed Hno).
    + intros Hbin Hlen. by rewrite (Hbinary Hbin Hlen).
  - intros r.
    destruct (enum_from_value (req_model_select_metric requested)) as [m |] eqn:E;
      [| done].
    destruct (from_config_and_label_names _ names) as [r' |] eqn:Er; [| done].
    intros [= ->]. exists m.
    apply enum_from_value_Some in E.
    apply from_config_and_label_names_built in Er as (-> & _).
    split; [exact E |]. split; [done |].
    intros metrics. by apply (member_never_unknown _ m).
Qed.

Lemma unknown_metric_rejected_at_configuration_witness :
  configure (mkRequestedConfig "f2" None ["text"] [] [] false) ["a"; "b"]
  = inl (EnumTypeError "f2")
  ∧ configure (mkRequestedConfig "label_f1" None ["text"] [] [] false) ["a"; "b"]
    = inl (ConstructionError AssertionError)
  ∧ ∃ r, configure (mkRequestedConfig "mcc" None ["text"] [] [] false) ["a"; "b"]
         = inr r
         ∧ model_select_metric r = Member MCC.
Proof.
  split; [| split].
  - apply (unknown_metric_rejected_at_configuration
             (mkRequestedConfig "f2" None ["text"] [] [] false) ["a"; "b"]).
    intros m. destruct m; discriminate.
  - destruct (unknown_metric_rejected_at_configuration
                (mkRequestedConfig "label_f1" None ["text"] [] [] false) ["a"; "b"])
      as (_ & Hrejected & _).
    destruct (Hrejected LABEL_F1 eq_refl) as [Htarget _].
    apply Htarget.
    + left. reflexivity.
    + intros (t & Ht & _). discriminate Ht.
  - eexists. split; reflexivity.
Defined.

(** ** Batch aggregation *)

Lemma add_batch_stats_unfold (self : Reporter) (b : Batch) :
  ClassificationMetricReporter.add_batch_stats self b
  = let* n := recorded_batch_size (b_m_input b) in
    Ok (set_acc self
          (set_batch_size (aggregated self b)
             (batch_size (aggregated self b) ++ [n]))).
Proof.
  unfold ClassificationMetricReporter.add_batch_stats.
  fold (aggregated self b).
  destruct (b_m_input b) as [[| m0 ms] | pending]; reflexivity.
Qed.

Lemma aggregate_context_buffers (a : Accumulation) (context : list (string * ContextValue)) :
  let a' := aggregate_context a context in
  n_batches a' = n_batches a ∧ all_preds a' = all_preds a
  ∧ all_targets a' = all_targets a ∧ all_scores a' = all_scores a
  ∧ all_loss a' = all_loss a ∧ batch_size a' = batch_size a
  ∧ all_topk_preds a' = all_topk_preds a.
Proof.
  unfold aggregate_context. revert a.
  induction context as [| [key val] context IH]; intros a; simpl; [done |].
  destruct val as [items |]; simpl; [| apply IH].
  specialize (IH (set_all_context a
    (<[key := aggregate_data (default [] (all_context a !! key)) items]>
       (all_context a)))).
  simpl in IH. exact IH.
Qed.

Lemma aggregated_buffers (self : Reporter) (b : Batch) :
  all_preds (aggregated self b) = all_preds (acc self) ++ b_preds b
  ∧ all_targets (aggregated self b) = all_targets (acc self) ++ b_targets b
  ∧ all_scores (aggregated self b)
    = (if is_memory_efficient self then all_scores (acc self)
       else all_scores (acc self) ++ (float_row <$> b_scores b))
  ∧ batch_size (aggregated self b) = batch_size (acc self)
  ∧ all_topk_preds (aggregated self b) = all_topk_preds (acc self).
Proof.
  unfold aggregated.
  set (a0 := if negb (is_memory_efficient self) then _ else _).
  pose proof (aggregate_context_buffers a0 (b_context b)) as
    (_ & Hp & Ht & Hs & _ & Hb & Hk). simpl in *.
  assert (all_preds a0 = all_preds (acc self) ++ b_preds b
          ∧ all_targets a0 = all_targets (acc self) ++ b_targets b
          ∧ all_scores a0
            = (if is_memory_efficient self then all_scores (acc self)
               else all_scores (acc self) ++ (float_row <$> b_scores b))
          ∧ batch_size a0 = batch_size (acc self)
          ∧ all_topk_preds a0 = all_topk_preds (acc self)) as (Hp0 & Ht0 & Hs0 & Hb0 & Hk0).
  { subst a0. destruct (is_memory_efficient self); simpl; done. }
  destruct (b_loss b); simpl; rewrite ?Hp, ?Ht, ?Hs, ?Hb, ?Hk; done.
Qed.

(** What one successful [add_batch_stats] call leaves in the buffers. *)
Lemma add_batch_stats_buffers (self s : Reporter) (b : Batch) :
  ClassificationMetricReporter.add_batch_stats self b = Ok s →
  all_preds (acc s) = all_preds (acc self) ++ b_preds b
  ∧ all_targets (acc s) = all_targets (acc self) ++ b_targets b
  ∧ all_scores (acc s)
    = (if is_memory_efficient self then all_scores (acc self)
       else all_scores (acc self) ++ (float_row <$> b_scores b))
  ∧ all_topk_preds (acc s) = all_topk_preds (acc self)
  ∧ is_memory_efficient s = is_memory_efficient self
  ∧ label_names s = label_names self
  ∧ topk s = topk self.
Proof.
  rewrite add_batch_stats_unfold.
  destruct (recorded_batch_size _) as [n | e]; simpl; [| done].
  intros [= <-]. simpl.
  pose proof (aggregated_buffers self b) as (Hp & Ht & Hs & _ & Hk).
  done.
Qed.

(** C5, as the code has it -- with a generator as model input,
    [add_batch_stats] succeeds and appends 1 to the batch-size trace,
    whatever the generator would yield: the recorded number is the length
    of the one-element tuple that [tee] returns, not the size of the
    batch. *)
Theorem add_batch_stats_generator_batch_size
    (self : Reporter) (b : Batch) (pending : list (list pyval)) :
  b_m_input b = InputGenerator pending →
  ∃ s, ClassificationMetricReporter.add_batch_stats self b = Ok s
       ∧ batch_size (acc s) = batch_size (acc self) ++ [1].
Proof.
  intros Hgen. rewrite add_batch_stats_unfold, Hgen. simpl.
  eexists. split; [reflexivity |]. simpl.
  by pose proof (aggregated_buffers self b) as (_ & _ & _ & -> & _).
Qed.

Lemma add_batch_stats_generator_batch_size_witness :
  ∃ s, ClassificationMetricReporter.add_batch_stats (example_self false)
         (mkBatch 1 [PInt 0; PInt 2; PInt 1] [PInt 0; PInt 1; PInt 1] [] None
            (InputGenerator [[PInt 11; PInt 12; PInt 13]]) []) = Ok s
       ∧ batch_size (acc s) = [1].
Proof.
  exact (add_batch_stats_generator_batch_size (example_self false)
           (mkBatch 1 [PInt 0; PInt 2; PInt 1] [PInt 0; PInt 1; PInt 1] [] None
              (InputGenerator [[PInt 11; PInt 12; PInt 13]]) [])
           [[PInt 11; PInt 12; PInt 13]] eq_refl).
Defined.

(** With a tuple as model input the recorded size is the length of its
    first element, and an empty tuple is an [IndexError]. *)
Lemma add_batch_stats_tuple_batch_size
    (self : Reporter) (b : Batch) (m0 : list pyval) (ms : list (list pyval)) :
  b_m_input b = InputTuple (m0 :: ms) →
  ∃ s, ClassificationMetricReporter.add_batch_stats self b = Ok s
       ∧ batch_size (acc s) = batch_size (acc self) ++ [Z.of_nat (length m0)].
Proof.
  intros Htup. rewrite add_batch_stats_unfold, Htup. simpl.
  eexists. split; [reflexivity |]. simpl.
  by pose proof (aggregated_buffers self b) as (_ & _ & _ & -> & _).
Qed.

(** ** The inputs of the metric calculators *)

Lemma length_zip_longest {A : Type} (fill : A) (a b c : list A) :
  length (zip_longest fill a b c)
  = (length a `max` (length b `max` length c))%nat.
Proof. unfold zip_longest. by rewrite length_fmap, length_seq. Qed.

Lemma lookup_zip_longest {A : Type} (fill : A) (a b c : list A) (i : nat) :
  (i < length a `max` (length b `max` length c))%nat →
  zip_longest fill a b c !! i
  = Some (default fill (a !! i), default fill (b !! i), default fill (c !! i)).
Proof.
  intros Hi. unfold zip_longest.
  rewrite list_lookup_fmap, lookup_seq_lt by done. done.
Qed.

Lemma zip3_nil_l {A B C : Type} (b : list B) (c : list C) :
  zip3 (@nil A) b c = [].
Proof. done. Qed.

Lemma zip3_same_length {A B C : Type} (a : list A) (b : list B) (c : list C) :
  length a = length b → length b = length c →
  length (zip3 a b c) = length a
  ∧ ∀ i x y z, a !! i = Some x → b !! i = Some y → c !! i = Some z →
               zip3 a b c !! i = Some (x, y, z).
Proof.
  revert b c. induction a as [| x a IH]; intros [| y b] [| z c]; simpl; try done.
  intros [= Hab] [= Hbc]. destruct (IH b c Hab Hbc) as [Hlen Hlook].
  split; [by rewrite Hlen |].
  intros [| i] x' y' z'; simpl; [by intros [= <-] [= <-] [= <-] | apply Hlook].
Qed.

(** A pass in memory-efficient mode: the score buffer is never touched,
    predictions and targets are appended batch after batch. *)
Lemma memory_efficient_pass (s0 s : Reporter) (batches : list Batch) :
  is_memory_efficient s0 = true →
  fold_result ClassificationMetricReporter.add_batch_stats s0 batches = Ok s →
  all_scores (acc s) = all_scores (acc s0)
  ∧ all_preds (acc s) = all_preds (acc s0) ++ concat (b_preds <$> batches)
  ∧ all_targets (acc s) = all_targets (acc s0) ++ concat (b_targets <$> batches).
Proof.
  revert s0. induction batches as [| b batches IH]; intros s0 Hmem; simpl.
  - intros [= <-]. by rewrite !app_nil_r.
  - destruct (ClassificationMetricReporter.add_batch_stats s0 b) as [s1 | e] eqn:E1;
      simpl; [| done].
    intros Hrest.
    apply add_batch_stats_buffers in E1 as (Hp & Ht & Hs & _ & Hm & _).
    rewrite Hmem in Hs, Hm.
    destruct (IH s1 Hm Hrest) as (Hs' & Hp' & Ht').
    rewrite Hs', Hp', Ht', Hs, Hp, Ht, <- !app_assoc. done.
Qed.

(** A pass changes the accumulated state of a reporter and nothing else
    of it. *)
Lemma pass_keeps_configuration (s0 s : Reporter) (batches : list Batch) :
  fold_result ClassificationMetricReporter.add_batch_stats s0 batches = Ok s →
  s = set_acc s0 (acc s).
Proof.
  revert s0. induction batches as [| b batches IH]; intros s0; simpl.
  - intros [= <-]. by destruct s0.
  - rewrite add_batch_stats_unfold.
    destruct (recorded_batch_size (b_m_input b)) as [n |]; simpl; [| done].
    intros Hrest. by rewrite (IH _ Hrest) at 1.
Qed.

(** C3 -- in memory-efficient mode the score buffer stays empty over a
    whole pass, and the input of the single-label metric calculator
    still has one entry per accumulated prediction/target pair, whose
    scores are the empty list that the padding zip fills in.
    [calculate_metric] hands exactly these entries to the metric
    calculator, with the reporter's label names and recall thresholds
    and without asking for average precisions: it raises only where the
    loss or the calculator does. *)
Theorem memory_efficient_scores_stay_empty
    (self s : Reporter) (batches : list Batch) :
  is_memory_efficient self = true →
  run_pass ClassificationMetricReporter.add_batch_stats self batches = Ok s →
  all_scores (acc s) = []
  ∧ all_preds (acc s) = concat (b_preds <$> batches)
  ∧ all_targets (acc s) = concat (b_targets <$> batches)
  ∧ length (ClassificationMetricReporter.label_predictions s)
    = (length (all_preds (acc s)) `max` length (all_targets (acc s)))%nat
  ∧ (∀ i pred expect,
      all_preds (acc s) !! i = Some pred →
      all_targets (acc s) !! i = Some expect →
      ClassificationMetricReporter.label_predictions s !! i
      = Some (PList [], pred, expect))
  ∧ ∀ (calculate_loss : Reporter → result (option Q))
      (compute_classification_metrics : calculator),
      ClassificationMetricReporter.calculate_metric
        calculate_loss compute_classification_metrics s
      = let* loss := calculate_loss s in
        compute_classification_metrics
          ((λ i, (PList [],
                  default (PList []) (all_preds (acc s) !! i),
                  default (PList []) (all_targets (acc s) !! i)))
             <$> seq 0 (length (all_preds (acc s))
                          `max` length (all_targets (acc s))))
          (label_names self) loss false (recall_at_precision_thresholds self).
Proof.
  intros Hmem Hpass. unfold run_pass in Hpass.
  pose proof (pass_keeps_configuration _ _ _ Hpass) as Hconf.
  apply memory_efficient_pass in Hpass as (Hs & Hp & Ht); [| done].
  simpl in Hs, Hp, Ht.
  unfold ClassificationMetricReporter.calculate_metric,
    ClassificationMetricReporter.label_predictions.
  rewrite Hs. split; [done |]. split; [done |]. split; [done |].
  split; [| split].
  - by rewrite length_zip_longest.
  - intros i pred expect Hpred Hexpect.
    rewrite lookup_zip_longest.
    + by rewrite Hpred, Hexpect.
    + apply lookup_lt_Some in Hpred. simpl. lia.
  - intros calculate_loss compute_classification_metrics.
    assert (label_names s = label_names self) as -> by (by rewrite Hconf).
    assert (recall_at_precision_thresholds s = recall_at_precision_thresholds self)
      as -> by (by rewrite Hconf).
    assert (is_memory_efficient s = true) as -> by (by rewrite Hconf).
    reflexivity.
Qed.

(** One call in memory-efficient mode leaves the score buffer as it is. *)
Lemma memory_efficient_add_batch_stats (self s : Reporter) (b : Batch) :
  is_memory_efficient self = true →
  ClassificationMetricReporter.add_batch_stats self b = Ok s →
  all_scores (acc s) = all_scores (acc self).
Proof.
  intros Hmem (_ & _ & Hs & _)%add_batch_stats_buffers.
  by rewrite Hmem in Hs.
Qed.

(** A pass succeeds as soon as no batch comes with an empty tuple as
    model input. *)
Lemma run_pass_succeeds (self : Reporter) (batches : list Batch) :
  Forall (λ b, b_m_input b ≠ InputTuple []) batches →
  ∃ s, run_pass ClassificationMetricReporter.add_batch_stats self batches = Ok s.
Proof.
  unfold run_pass. generalize (set_acc self _reset) as s0.
  induction batches as [| b batches IH]; intros s0 Hok; simpl; [eauto |].
  apply Forall_cons in Hok as [Hb Hok].
  rewrite add_batch_stats_unfold.
  destruct (b_m_input b) as [[| m0 ms] | pending]; simpl; try done; apply IH, Hok.
Qed.

Lemma memory_efficient_scores_stay_empty_witness :
  ∃ s, run_pass ClassificationMetricReporter.add_batch_stats (example_self true)
         [example_batch_1; example_batch_2] = Ok s
       ∧ all_scores (acc s) = []
       ∧ ClassificationMetricReporter.label_predictions s !! 2%nat
         = Some (PList [], PInt 1, PInt 1)
       ∧ ∀ (calculate_loss : Reporter → result (option Q))
           (compute_classification_metrics : calculator),
           ClassificationMetricReporter.calculate_metric
             calculate_loss compute_classification_metrics s
           = let* loss := calculate_loss s in
             compute_classification_metrics
               [(PList [], PInt 0, PInt 0); (PList [], PInt 2, PInt 0);
                (PList [], PInt 1, PInt 1)]
               ["a"; "b"; "c"] loss false [].
Proof.
  eexists. split; [reflexivity |].
  pose proof (memory_efficient_scores_stay_empty (example_self true) _
                [example_batch_1; example_batch_2] eq_refl eq_refl)
    as (Hs & _ & _ & _ & Hlook & Hmetric).
  split; [exact Hs |].
  split; [exact (Hlook 2%nat (PInt 1) (PInt 1) eq_refl eq_refl) |].
  exact Hmetric.
Defined.

(** ** The multi-label reporter in memory-efficient mode *)

(** In memory-efficient mode the plain [zip] of the multi-label
    [calculate_metric] meets an empty score buffer and yields nothing. *)
Lemma multi_label_memory_efficient_input_empty
    (self s : Reporter) (batches : list Batch) :
  is_memory_efficient self = true →
  run_pass MultiLabelClassificationMetricReporter.add_batch_stats self batches = Ok s →
  MultiLabelClassificationMetricReporter.label_list_predictions s = [].
Proof.
  intros Hmem Hpass.
  apply memory_efficient_pass in Hpass as (Hs & _); [| done].
  unfold MultiLabelClassificationMetricReporter.label_list_predictions.
  rewrite Hs. done.
Qed.

(** When the three buffers have the same length, every accumulated
    triple is in the input of the multi-label calculator. *)
Lemma multi_label_aligned_input (s : Reporter) :
  length (all_scores (acc s)) = length (all_preds (acc s)) →
  length (all_preds (acc s)) = length (all_targets (acc s)) →
  ∀ i scores pred expect,
    all_scores (acc s) !! i = Some scores →
    all_preds (acc s) !! i = Some pred →
    all_targets (acc s) !! i = Some expect →
    MultiLabelClassificationMetricReporter.label_list_predictions s !! i
    = Some (scores, pred, expect).
Proof.
  intros Hsp Hpt.
  by destruct (zip3_same_length _ _ _ Hsp Hpt) as [_ Hlook].
Qed.

(** C4, at the failing input -- a multi-label reporter in
    memory-efficient mode that has accumulated one prediction/target
    pair hands an empty list to the metric calculator: the pair is
    dropped. *)
Theorem multi_label_memory_efficient_drops_pairs :
  ∃ s, run_pass MultiLabelClassificationMetricReporter.add_batch_stats
         (example_self true) [multi_label_batch] = Ok s
       ∧ all_preds (acc s) = [PList [PInt 1; PInt 0; PInt 1]]
       ∧ all_targets (acc s) = [PList [PInt 0; PInt 1; PInt (-1)]]
       ∧ all_scores (acc s) = []
       ∧ MultiLabelClassificationMetricReporter.label_list_predictions s = [].
Proof. eexists. repeat split. Qed.

(** The same batch with the mode off: the pair reaches the calculator. *)
Example multi_label_keeps_pairs :
  ∃ s, run_pass MultiLabelClassificationMetricReporter.add_batch_stats
         (example_self false) [multi_label_batch] = Ok s
       ∧ MultiLabelClassificationMetricReporter.label_list_predictions s
         = [(float_row [9 # 10; 2 # 10; 8 # 10]%Q,
             PList [PInt 1; PInt 0; PInt 1],
             PList [PInt 0; PInt 1; PInt (-1)])].
Proof. eexists. repeat split. Qed.

(** ** Top-k hits and the single attribution of a miss *)

Lemma py_getitem_in_catalogue (names : list string) (i : Z) :
  in_catalogue names i = true →
  py_getitem names i = Ok (label_name names i).
Proof.
  unfold in_catalogue, py_getitem, label_name. intros Hi.
  apply andb_true_iff in Hi as [Hlo Hhi].
  assert ((i <? 0) = false) as -> by lia.
  rewrite Hlo, Hhi. simpl.
  destruct (names !! Z.to_nat i) eqn:E; [done |].
  apply lookup_ge_None in E. lia.
Qed.

Lemma map_result_in_catalogue (names : list string) (idxs : list Z) :
  forallb (in_catalogue names) idxs = true →
  map_result (py_index names) (PInt <$> idxs) = Ok (label_name names <$> idxs).
Proof.
  induction idxs as [| i idxs IH]; csimpl; [done |].
  intros [Hi Hrest]%andb_true_iff.
  rewrite py_getitem_in_catalogue by done. csimpl.
  rewrite IH by done. done.
Qed.

Lemma count_update (plc : PerLabelConfusions.t) (l l' : string) (o o' : Outcome) (c : Z) :
  PerLabelConfusions.count (PerLabelConfusions.update plc l o c) l' o'
  = PerLabelConfusions.count plc l' o'
    + (if bool_decide (l = l') && bool_decide (o = o') then c else 0).
Proof.
  unfold PerLabelConfusions.count, PerLabelConfusions.update.
  destruct (decide (l = l')) as [<- | Hne].
  - rewrite lookup_insert_eq, bool_decide_eq_true_2 by done. simpl.
    destruct o, o'; simpl; lia.
  - rewrite lookup_insert_ne, bool_decide_eq_false_2 by done. simpl. lia.
Qed.

Lemma count_new (l : string) (o : Outcome) :
  PerLabelConfusions.count PerLabelConfusions.new l o = 0.
Proof.
  unfold PerLabelConfusions.count, PerLabelConfusions.new.
  rewrite lookup_empty. by destruct o.
Qed.

(** One turn of the loop on a well-formed prediction. *)
Lemma topk_count_example_well_formed
    (names : list string) (nc : Z) (plc : PerLabelConfusions.t) (e : TopKExample) :
  well_formed names e = true →
  topk_count_example names (nc, plc) (LabelTopKPrediction e)
  = Ok (if is_hit names e
        then (nc + 1,
              PerLabelConfusions.update plc (label_name names (ex_expected e)) TP 1)
        else (nc,
              PerLabelConfusions.update
                (PerLabelConfusions.update plc (label_name names (ex_expected e)) FN 1)
                (first_label names e) FP 1)).
Proof.
  unfold well_formed, topk_count_example, LabelTopKPrediction, is_hit, first_label.
  destruct e as [scores topk expected]. csimpl.
  intros [[Hexp Htopk]%andb_true_iff Hne%negb_true_iff]%andb_true_iff.
  apply bool_decide_eq_false in Hne.
  rewrite map_result_in_catalogue by done. csimpl.
  rewrite py_getitem_in_catalogue by done. csimpl.
  case_bool_decide; [done |].
  destruct topk as [| i topk]; [done |]. reflexivity.
Qed.

Lemma count_where_cons {A : Type} (P : A → bool) (x : A) (l : list A) :
  count_where P (x :: l) = (if P x then 1 else 0) + count_where P l.
Proof. reflexivity. Qed.

Lemma topk_count_from (names : list string) (exs : list TopKExample)
    (nc0 : Z) (plc0 : PerLabelConfusions.t) :
  forallb (well_formed names) exs = true →
  ∃ plc,
    fold_result (topk_count_example names) (nc0, plc0) (LabelTopKPrediction <$> exs)
    = Ok (nc0 + count_where (is_hit names) exs, plc)
    ∧ ∀ l o, PerLabelConfusions.count plc l o
             = PerLabelConfusions.count plc0 l o
               + count_where (attributed names l o) exs.
Proof.
  revert nc0 plc0. induction exs as [| e exs IH]; intros nc0 plc0 Hwf.
  - exists plc0. split; [cbn; do 2 f_equal; lia | intros; cbn; lia].
  - cbn [forallb] in Hwf. apply andb_true_iff in Hwf as [He Hexs].
    rewrite fmap_cons. cbn [fold_result].
    rewrite topk_count_example_well_formed by done. cbn [bind].
    rewrite count_where_cons.
    destruct (is_hit names e) eqn:Ehit.
    + destruct (IH (nc0 + 1) (PerLabelConfusions.update plc0
                      (label_name names (ex_expected e)) TP 1) Hexs)
        as (plc & Hrun & Hcount).
      exists plc. split.
      * rewrite Hrun. do 2 f_equal; lia.
      * intros l o. rewrite Hcount, count_update, count_where_cons.
        unfold attributed at 2. rewrite Ehit.
        destruct o; simpl; rewrite ?andb_false_r, ?andb_true_r;
          repeat case_bool_decide; simpl; lia.
    + destruct (IH nc0 (PerLabelConfusions.update
                      (PerLabelConfusions.update plc0
                         (label_name names (ex_expected e)) FN 1)
                      (first_label names e) FP 1) Hexs)
        as (plc & Hrun & Hcount).
      exists plc. split.
      * rewrite Hrun. do 2 f_equal; lia.
      * intros l o. rewrite Hcount, !count_update, count_where_cons.
        unfold attributed at 2. rewrite Ehit.
        destruct o; simpl; rewrite ?andb_false_r, ?andb_true_r;
          repeat case_bool_decide; simpl; lia.
Qed.

(** C1 -- on well-formed predictions the loop of
    [compute_topk_classification_metrics] returns; its [num_correct] is
    the number of predictions whose expected label is in the top-k list;
    and its confusion counters are those of the single attribution: for
    every label, TP counts the hits expecting it, FN the misses expecting
    it, and FP the misses whose first top-k element it is -- the other
    elements of a missed top-k list leave no entry.  The report is built
    from these two results. *)
Theorem topk_single_attribution (names : list string) (exs : list TopKExample) :
  forallb (well_formed names) exs = true →
  ∃ plc,
    topk_count (LabelTopKPrediction <$> exs) names
    = Ok (count_where (is_hit names) exs, plc)
    ∧ (∀ l o, PerLabelConfusions.count plc l o
              = count_where (attributed names l o) exs)
    ∧ ∀ compute_metrics loss log,
        compute_topk_classification_metrics compute_metrics
          (LabelTopKPrediction <$> exs) names loss log
        = Ok (mkMetrics
                (safe_division (count_where (is_hit names) exs)
                   (Z.of_nat (length exs)))
                (compute_metrics plc log) (Some ∅) None None loss).
Proof.
  intros Hwf. unfold compute_topk_classification_metrics, topk_count.
  destruct (topk_count_from names exs 0 PerLabelConfusions.new Hwf)
    as (plc & Hrun & Hcount).
  exists plc. split; [exact Hrun |]. split.
  - intros l o. by rewrite Hcount, count_new.
  - intros compute_metrics loss log.
    rewrite Hrun. cbn [bind]. by rewrite length_fmap.
Qed.

(** With a catalogue free of duplicates, a hit is the expected index
    being one of the top-k indices. *)
Lemma is_hit_index (names : list string) (e : TopKExample) :
  NoDup names →
  well_formed names e = true →
  is_hit names e = bool_decide (ex_expected e ∈ ex_topk e).
Proof.
  intros Hnodup Hwf. unfold well_formed in Hwf. cbn [forallb] in Hwf.
  apply andb_true_iff in Hwf as [[Hexp Htopk]%andb_true_iff _].
  unfold is_hit. apply bool_decide_ext. rewrite list_elem_of_fmap. split.
  - intros (i & Hname & Hin).
    assert (in_catalogue names i = true) as Hi.
    { rewrite forallb_forall in Htopk. apply Htopk, list_elem_of_In, Hin. }
    unfold in_catalogue in Hexp, Hi.
    apply andb_true_iff in Hexp as [? ?]. apply andb_true_iff in Hi as [? ?].
    unfold label_name in Hname.
    destruct (names !! Z.to_nat (ex_expected e)) as [x |] eqn:Ex;
      [| apply lookup_ge_None in Ex; lia].
    destruct (names !! Z.to_nat i) as [y |] eqn:Ey;
      [| apply lookup_ge_None in Ey; lia].
    simpl in Hname. subst y.
    pose proof (NoDup_lookup _ _ _ _ Hnodup Ex Ey) as Heq.
    assert (ex_expected e = i) as -> by lia. done.
  - intros Hin. exists (ex_expected e). done.
Qed.

Lemma topk_single_attribution_witness :
  ∃ plc,
    topk_count (LabelTopKPrediction <$> example_topk_predictions) example_names
    = Ok (1, plc)
    ∧ PerLabelConfusions.count plc "c" TP = 1
    ∧ PerLabelConfusions.count plc "d" FN = 1
    ∧ PerLabelConfusions.count plc "a" FP = 1
    ∧ PerLabelConfusions.count plc "b" FP = 0
    ∧ PerLabelConfusions.count plc "c" FP = 0.
Proof.
  destruct (topk_single_attribution example_names example_topk_predictions eq_refl)
    as (plc & Hrun & Hcount & _).
  exists plc. split; [exact Hrun |].
  rewrite !Hcount. repeat split.
Defined.

(** Outside the well-formed predictions the loop raises: a miss on an
    empty top-k list has no first element to blame. *)
Example topk_count_empty_topk :
  topk_count [(PList [], PList [], PInt 0)] example_names = Raise IndexError.
Proof. reflexivity. Qed.

(** ** Top-k selection *)

Lemma insert_desc_Permutation (x : Z * Q) (l : list (Z * Q)) :
  insert_desc x l ≡ₚ x :: l.
Proof.
  induction l as [| y l IH]; simpl; [done |].
  destruct (Qle_bool (snd y) (snd x)); [done |].
  rewrite IH. apply Permutation_swap.
Qed.

Lemma sort_desc_Permutation (l : list (Z * Q)) : sort_desc l ≡ₚ l.
Proof.
  induction l as [| x l IH]; simpl; [done |].
  by rewrite insert_desc_Permutation, IH.
Qed.

Lemma insert_desc_sorted (x : Z * Q) (l : list (Z * Q)) :
  StronglySorted score_ge l → StronglySorted score_ge (insert_desc x l).
Proof.
  induction l as [| y l IH]; simpl; intros Hsorted.
  - repeat constructor.
  - apply StronglySorted_cons in Hsorted as [Hy Hl].
    destruct (Qle_bool (snd y) (snd x)) eqn:E.
    + apply Qle_bool_iff in E.
      constructor; [by constructor |].
      constructor; [exact E |].
      eapply Forall_impl; [exact Hy |].
      intros z Hz. unfold score_ge in *. by eapply Qle_trans.
    + constructor; [by apply IH |].
      assert (score_ge y x) as Hyx.
      { unfold score_ge. apply Qlt_le_weak, Qnot_le_lt.
        intros Hle. apply Qle_bool_iff in Hle. congruence. }
      rewrite insert_desc_Permutation. by constructor.
Qed.

Lemma sort_desc_sorted (l : list (Z * Q)) : StronglySorted score_ge (sort_desc l).
Proof.
  induction l as [| x l IH]; simpl; [constructor | by apply insert_desc_sorted].
Qed.

Lemma elem_of_indexed (row : list Q) (i : Z) (v : Q) :
  (i, v) ∈ indexed row ↔ ∃ n, i = Z.of_nat n ∧ row !! n = Some v.
Proof.
  unfold indexed. rewrite list_elem_of_lookup. split.
  - intros (n & Hn). rewrite list_lookup_imap in Hn.
    destruct (row !! n) as [w |] eqn:E; simplify_eq/=. eauto.
  - intros (n & -> & Hn). exists n. by rewrite list_lookup_imap, Hn.
Qed.

Lemma NoDup_indexed (row : list Q) : NoDup (indexed row).*1.
Proof.
  apply NoDup_alt. intros i j x Hi Hj.
  unfold indexed in Hi, Hj.
  rewrite list_lookup_fmap, list_lookup_imap in Hi, Hj.
  destruct (row !! i); destruct (row !! j); simplify_eq/=. lia.
Qed.

(** The stable selection of one row returns the positions of [k] highest
    scores. *)
Lemma stable_topk_row_k_highest (k : Z) (row : list Q) (vals : list Q) (idxs : list Z) :
  stable_topk_row k row = Ok (vals, idxs) → k_highest k row idxs.
Proof.
  unfold stable_topk_row.
  destruct ((0 <=? k) && (k <=? Z.of_nat (length row))) eqn:Hk; [| done].
  apply andb_true_iff in Hk as [Hk0 Hkn].
  intros [= _ <-].
  set (sorted := sort_desc (indexed row)).
  pose proof (sort_desc_Permutation (indexed row)) as Hperm. fold sorted in Hperm.
  pose proof (sort_desc_sorted (indexed row)) as Hsorted. fold sorted in Hsorted.
  assert (length sorted = length row) as Hlen.
  { rewrite Hperm. unfold indexed. by rewrite length_imap. }
  assert (∀ i v, (i, v) ∈ take (Z.to_nat k) sorted →
                 ∃ n, i = Z.of_nat n ∧ row !! n = Some v) as Hbest.
  { intros i v Hin. apply elem_of_indexed. rewrite <- Hperm.
    eapply elem_of_sublist; [exact Hin | apply sublist_take]. }
  split; [| split; [| split]].
  - rewrite length_fmap, length_take_le by lia. lia.
  - rewrite fmap_take. eapply sublist_NoDup; [| apply sublist_take].
    rewrite Hperm. apply NoDup_indexed.
  - intros i Hi.
    apply list_elem_of_fmap in Hi as ([i' v] & -> & Hin).
    apply Hbest in Hin as (n & -> & Hn%lookup_lt_Some). simpl. lia.
  - intros i j vi vj Hi Hj Hvi Hvj.
    apply list_elem_of_fmap in Hi as ([i' v] & -> & Hin). simpl in Hvi.
    destruct (Hbest _ _ Hin) as (n & -> & Hn).
    rewrite Nat2Z.id in Hvi. assert (v = vi) as -> by congruence.
    assert ((Z.of_nat j, vj) ∈ sorted) as Hjs.
    { rewrite Hperm. apply elem_of_indexed. eauto. }
    rewrite <- (take_drop (Z.to_nat k) sorted) in Hjs, Hsorted.
    apply elem_of_app in Hjs as [Hjs | Hjs].
    + exfalso. apply Hj. apply list_elem_of_fmap. by exists (Z.of_nat j, vj).
    + exact (StronglySorted_app_1_elem_of _ _ _ _ _ Hsorted Hin Hjs).
Qed.

Lemma stable_topk_row_succeeds (k : Z) (row : list Q) :
  0 ≤ k ≤ Z.of_nat (length row) → ∃ r, stable_topk_row k row = Ok r.
Proof.
  intros Hk. unfold stable_topk_row.
  assert ((0 <=? k) && (k <=? Z.of_nat (length row)) = true) as ->; [| eauto].
  apply andb_true_iff. lia.
Qed.

Lemma map_result_Forall2 {A B : Type} (f : A → result B) (xs : list A) (ys : list B) :
  map_result f xs = Ok ys → Forall2 (λ x y, f x = Ok y) xs ys.
Proof.
  revert ys. induction xs as [| x xs IH]; intros ys; simpl.
  - intros [= <-]. constructor.
  - destruct (f x) as [y |] eqn:Ey; simpl; [| done].
    destruct (map_result f xs) as [ys' |]; simpl; [| done].
    intros [= <-]. constructor; [done | by apply IH].
Qed.

(** The stable selection keeps the first promise of [torch.topk]: one
    index list per row of the score matrix, holding the positions of [k]
    highest scores of that row. *)
Lemma stable_topk_selects : selects_k_highest stable_topk.
Proof.
  intros batch_scores k values indices. unfold stable_topk.
  destruct (map_result (stable_topk_row k) batch_scores) as [rows |] eqn:E;
    simpl; [| done].
  intros [= _ <-].
  apply map_result_Forall2 in E.
  induction E as [| row [vals idxs] scores rows Hrow _ IH]; csimpl; constructor.
  - by eapply stable_topk_row_k_highest.
  - exact IH.
Qed.

(** With the stable selection, the lower position comes first among equal
    scores; and a [k] above the number of labels is an error. *)
Example stable_topk_row_tie :
  stable_topk_row 2 [1 # 4; 1 # 2; 1 # 2]%Q = Ok ([1 # 2; 1 # 2]%Q, [1; 2]).
Proof. reflexivity. Qed.

Example stable_topk_row_out_of_range :
  stable_topk_row 3 [1 # 4; 1 # 2]%Q = Raise RuntimeError.
Proof. reflexivity. Qed.

(** On tied scores [k_highest] leaves the choice open: of three equal
    highest scores, the positions [1; 2] that the stable selection returns
    and the positions [2; 3] are both [2] highest. *)
Example k_highest_tie_open :
  k_highest 2 [1 # 4; 1 # 2; 1 # 2; 1 # 2]%Q [1; 2]
  ∧ k_highest 2 [1 # 4; 1 # 2; 1 # 2; 1 # 2]%Q [2; 3].
Proof.
  assert (∀ j (vj : Q), [1 # 4; 1 # 2; 1 # 2; 1 # 2]%Q !! j = Some vj →
                        (vj <= 1 # 2)%Q) as Hmax.
  { intros j vj Hj.
    destruct j as [| [| [| [| j]]]]; simplify_eq/=; by vm_compute. }
  split.
  - split; [done |]. split; [| split].
    + apply (bool_decide_unpack _). by vm_compute.
    + intros i Hi. simpl.
      apply elem_of_cons in Hi as [-> | Hi]; [lia |].
      apply elem_of_cons in Hi as [-> | Hi]; [lia |].
      by apply elem_of_nil in Hi.
    + intros i j vi vj Hi _ Hvi Hvj.
      apply elem_of_cons in Hi as [-> | Hi];
        [| apply elem_of_cons in Hi as [-> | Hi]; [| by apply elem_of_nil in Hi]];
        injection Hvi as <-; by eapply Hmax.
  - split; [done |]. split; [| split].
    + apply (bool_decide_unpack _). by vm_compute.
    + intros i Hi. simpl.
      apply elem_of_cons in Hi as [-> | Hi]; [lia |].
      apply elem_of_cons in Hi as [-> | Hi]; [lia |].
      by apply elem_of_nil in Hi.
    + intros i j vi vj Hi _ Hvi Hvj.
      apply elem_of_cons in Hi as [-> | Hi];
        [| apply elem_of_cons in Hi as [-> | Hi]; [| by apply elem_of_nil in Hi]];
        injection Hvi as <-; by eapply Hmax.
Qed.

(** ** The top-k buffer over a pass *)

Section TopKPass.
(** [torch.topk], of which the lemmas on the buffers assume nothing; the
    one on the length of the score buffer uses that it returns one index
    list per row. *)
Variable torch_topk : topk_function.
Hypothesis torch_topk_selects : selects_k_highest torch_topk.

(** What one successful call of the top-k reporter leaves in the
    buffers. *)
Lemma topk_add_batch_stats_buffers (self s : Reporter) (b : Batch) :
  TopKClassificationMetricReporter.add_batch_stats torch_topk self b = Ok s →
  ∃ values indices,
    torch_topk (b_scores b) (topk self) = Ok (values, indices)
    ∧ all_topk_preds (acc s) = all_topk_preds (acc self) ++ (index_row <$> indices)
    ∧ all_targets (acc s) = all_targets (acc self) ++ b_targets b
    ∧ all_scores (acc s)
      = (if is_memory_efficient self then all_scores (acc self)
         else all_scores (acc self) ++ (float_row <$> b_scores b))
    ∧ is_memory_efficient s = is_memory_efficient self
    ∧ label_names s = label_names self
    ∧ topk s = topk self.
Proof.
  unfold TopKClassificationMetricReporter.add_batch_stats.
  destruct (ClassificationMetricReporter.add_batch_stats self b) as [s1 |] eqn:E1;
    simpl; [| done].
  apply add_batch_stats_buffers in E1 as (_ & Ht & Hs & Hk & Hm & Hn & Htopk).
  unfold TopKClassificationMetricReporter.aggregate_topkpreds. rewrite Htopk.
  destruct (torch_topk (b_scores b) (topk self)) as [[values indices] |];
    simpl; [| done].
  intros [= <-]. exists values, indices. simpl.
  unfold aggregate_data. rewrite Hk. done.
Qed.

(** Whether a call of the top-k reporter succeeds depends on the batch
    and on [topk] only. *)
Lemma topk_add_batch_stats_succeeds (self : Reporter) (b : Batch) :
  (∃ s, TopKClassificationMetricReporter.add_batch_stats torch_topk self b = Ok s)
  ↔ (∃ n, recorded_batch_size (b_m_input b) = Ok n)
    ∧ (∃ r, torch_topk (b_scores b) (topk self) = Ok r).
Proof.
  unfold TopKClassificationMetricReporter.add_batch_stats,
    TopKClassificationMetricReporter.aggregate_topkpreds.
  rewrite add_batch_stats_unfold.
  destruct (recorded_batch_size (b_m_input b)) as [n |]; simpl.
  - destruct (torch_topk (b_scores b) (topk self)) as [[values indices] |]; simpl.
    + split; eauto.
    + split; [by intros [? ?] | by intros [_ [? ?]]].
  - split; [by intros [? ?] | by intros [[? ?] _]].
Qed.

(** Two reporters that agree on [topk], on the catalogue and on the
    top-k and target buffers keep agreeing on them over a pass, whatever
    their memory-efficiency flags. *)
Lemma topk_pass_two_modes (s1 s1' s2 : Reporter) (batches : list Batch) :
  topk s1' = topk s1 →
  label_names s1' = label_names s1 →
  all_topk_preds (acc s1') = all_topk_preds (acc s1) →
  all_targets (acc s1') = all_targets (acc s1) →
  fold_result (TopKClassificationMetricReporter.add_batch_stats torch_topk) s1 batches = Ok s2 →
  ∃ s2',
    fold_result (TopKClassificationMetricReporter.add_batch_stats torch_topk) s1' batches = Ok s2'
    ∧ label_names s2' = label_names s2
    ∧ all_topk_preds (acc s2') = all_topk_preds (acc s2)
    ∧ all_targets (acc s2') = all_targets (acc s2).
Proof.
  revert s1 s1'. induction batches as [| b batches IH];
    intros s1 s1' Hk Hn Hp Ht; simpl.
  - intros [= <-]. eauto.
  - destruct (TopKClassificationMetricReporter.add_batch_stats torch_topk s1 b)
      as [s |] eqn:E; simpl; [| done].
    intros Hrest.
    assert (∃ s', TopKClassificationMetricReporter.add_batch_stats torch_topk s1' b = Ok s')
      as [s' E'].
    { apply topk_add_batch_stats_succeeds. rewrite Hk.
      apply topk_add_batch_stats_succeeds. eauto. }
    rewrite E'. simpl.
    apply topk_add_batch_stats_buffers in E
      as (values & indices & Etopk & Hp1 & Ht1 & _ & _ & Hn1 & Hk1).
    apply topk_add_batch_stats_buffers in E'
      as (values' & indices' & Etopk' & Hp1' & Ht1' & _ & _ & Hn1' & Hk1').
    rewrite Hk, Etopk in Etopk'. injection Etopk' as <- <-.
    apply (IH s s'); [congruence .. | exact Hrest].
Qed.

(** Over a pass the top-k buffer receives, batch after batch, the
    index lists that [torch_topk] selects from the batch's scores. *)
Lemma topk_pass_preds (s1 s2 : Reporter) (batches : list Batch) :
  fold_result (TopKClassificationMetricReporter.add_batch_stats torch_topk) s1 batches = Ok s2 →
  ∃ indices : list (list (list Z)),
    Forall2 (λ b idx, ∃ values, torch_topk (b_scores b) (topk s1) = Ok (values, idx))
      batches indices
    ∧ all_topk_preds (acc s2)
      = all_topk_preds (acc s1) ++ (index_row <$> concat indices).
Proof.
  revert s1. induction batches as [| b batches IH]; intros s1; simpl.
  - intros [= <-]. exists []. split; [constructor | by rewrite app_nil_r].
  - destruct (TopKClassificationMetricReporter.add_batch_stats torch_topk s1 b)
      as [s |] eqn:E; simpl; [| done].
    intros Hrest.
    apply topk_add_batch_stats_buffers in E
      as (values & indices & Etopk & Hp & _ & _ & _ & _ & Hk).
    destruct (IH s Hrest) as (rest & Hall & Hp').
    exists (indices :: rest). split.
    + constructor; [eauto |]. by rewrite <- Hk.
    + rewrite Hp', Hp. csimpl. by rewrite fmap_app, app_assoc.
Qed.

(** The score buffer never gets longer than the top-k buffer. *)
Lemma topk_pass_scores_bounded (s1 s2 : Reporter) (batches : list Batch) :
  (length (all_scores (acc s1)) ≤ length (all_topk_preds (acc s1)))%nat →
  fold_result (TopKClassificationMetricReporter.add_batch_stats torch_topk) s1 batches = Ok s2 →
  (length (all_scores (acc s2)) ≤ length (all_topk_preds (acc s2)))%nat.
Proof.
  revert s1. induction batches as [| b batches IH]; intros s1 Hle; simpl.
  - by intros [= <-].
  - destruct (TopKClassificationMetricReporter.add_batch_stats torch_topk s1 b)
      as [s |] eqn:E; simpl; [| done].
    apply IH.
    apply topk_add_batch_stats_buffers in E
      as (values & indices & Etopk & Hp & _ & Hs & _).
    apply torch_topk_selects, Forall2_length in Etopk.
    rewrite Hp, Hs, length_app, length_fmap.
    destruct (is_memory_efficient s1); [lia |].
    rewrite length_app, length_fmap. lia.
Qed.

(** In memory-efficient mode the score buffer is left as it is. *)
Lemma topk_pass_scores_withheld (s1 s2 : Reporter) (batches : list Batch) :
  is_memory_efficient s1 = true →
  fold_result (TopKClassificationMetricReporter.add_batch_stats torch_topk) s1 batches = Ok s2 →
  all_scores (acc s2) = all_scores (acc s1).
Proof.
  revert s1. induction batches as [| b batches IH]; intros s1 Hmem; simpl.
  - by intros [= <-].
  - destruct (TopKClassificationMetricReporter.add_batch_stats torch_topk s1 b)
      as [s |] eqn:E; simpl; [| done].
    intros Hrest.
    apply topk_add_batch_stats_buffers in E
      as (values & indices & _ & _ & _ & Hs & Hm & _).
    rewrite Hmem in Hs, Hm.
    rewrite (IH s Hm Hrest). exact Hs.
Qed.

End TopKPass.

Lemma topk_count_example_scores (names : list string) (st : Z * PerLabelConfusions.t)
    (x y t label : pyval) :
  topk_count_example names st (x, t, label) = topk_count_example names st (y, t, label).
Proof. by destruct st. Qed.

Lemma fold_result_fmap_ext {A B S : Type} (f : S → B → result S) (g h : A → B)
    (l : list A) (s0 : S) :
  (∀ x s, f s (g x) = f s (h x)) →
  fold_result f s0 (g <$> l) = fold_result f s0 (h <$> l).
Proof.
  intros Hext. revert s0. induction l as [| x l IH]; intros s0; csimpl; [done |].
  rewrite Hext. destruct (f s0 (h x)); simpl; [apply IH | done].
Qed.

(** The top-k counts do not look at the scores: a score buffer no longer
    than the other two can be replaced by another such buffer. *)
Lemma topk_count_zip_longest (names : list string) (fill : pyval)
    (a a' b c : list pyval) :
  (length a ≤ length b `max` length c)%nat →
  (length a' ≤ length b `max` length c)%nat →
  topk_count (zip_longest fill a b c) names
  = topk_count (zip_longest fill a' b c) names
  ∧ length (zip_longest fill a b c) = length (zip_longest fill a' b c).
Proof.
  intros Ha Ha'. split; [| rewrite !length_zip_longest; lia].
  unfold topk_count, zip_longest.
  replace (length a `max` (length b `max` length c))%nat
    with (length b `max` length c)%nat by lia.
  replace (length a' `max` (length b `max` length c))%nat
    with (length b `max` length c)%nat by lia.
  apply fold_result_fmap_ext. intros i st. apply topk_count_example_scores.
Qed.

Lemma Forall2_concat_k_highest (k : Z) (scores : list (list (list Q)))
    (indices : list (list (list Z))) :
  Forall2 (Forall2 (k_highest k)) scores indices →
  Forall2 (k_highest k) (concat scores) (concat indices).
Proof.
  induction 1 as [| rows idxs scores indices Hrows _ IH]; simpl;
    [constructor | by apply Forall2_app].
Qed.



(** The counts of that pass: two hits, and one miss blamed on the first
    element of its top-k list only. *)
Example topk_pass_counts :
  ∃ s plc,
    run_pass (TopKClassificationMetricReporter.add_batch_stats stable_topk)
      (example_self true) [example_batch_1; example_batch_2] = Ok s
    ∧ topk_count (TopKClassificationMetricReporter.topk_label_predictions s)
        (label_names s) = Ok (2, plc)
    ∧ PerLabelConfusions.count plc "a" TP = 1
    ∧ PerLabelConfusions.count plc "b" TP = 1
    ∧ PerLabelConfusions.count plc "a" FN = 1
    ∧ PerLabelConfusions.count plc "c" FP = 1
    ∧ PerLabelConfusions.count plc "b" FP = 0.
Proof. do 2 eexists. split; [reflexivity |]. split; [reflexivity |]. repeat split. Qed.

(** The report of that pass in memory-efficient mode, with the tracker's
    scores and the mean loss modelled from the spec: two of three
    predictions are correct and nothing is computed from the scores. *)
Example topk_calculate_metric_example :
  ∃ s r,
    run_pass (TopKClassificationMetricReporter.add_batch_stats stable_topk)
      (example_self true) [example_batch_1; example_batch_2] = Ok s
    ∧ TopKClassificationMetricReporter.calculate_metric
        PerLabelConfusions.compute_metrics mean_loss s = Ok r
    ∧ accuracy r = (2 # 3)%Q
    ∧ loss r = Some (4 # 10)%Q
    ∧ no_soft_metrics r.
Proof.
  do 2 eexists. split; [reflexivity |]. split; [reflexivity |].
  repeat split.
Qed.

(** ** More on batch aggregation *)

Lemma aggregate_context_untouched (a : Accumulation)
    (context : list (string * ContextValue)) (key : string) :
  (∀ val, (key, CtxSequence val) ∉ context) →
  all_context (aggregate_context a context) !! key = all_context a !! key.
Proof.
  unfold aggregate_context. revert a.
  induction context as [| [k v] context IH]; intros a Hno; simpl; [done |].
  rewrite IH.
  - destruct v as [val |]; simpl; [| done].
    apply lookup_insert_ne. intros ->. apply (Hno val). left.
  - intros val Hin. apply (Hno val). by right.
Qed.

Lemma aggregate_context_appended (a : Accumulation)
    (context : list (string * ContextValue)) (key : string) (val : list pyval) :
  NoDup context.*1 →
  (key, CtxSequence val) ∈ context →
  all_context (aggregate_context a context) !! key
  = Some (default [] (all_context a !! key) ++ val).
Proof.
  revert a. induction context as [| [k v] context IH]; intros a Hnd Hin.
  - by apply elem_of_nil in Hin.
  - apply NoDup_cons in Hnd as [Hk Hnd].
    apply elem_of_cons in Hin as [[= <- <-] | Hin].
    + change (aggregate_context a ((key, CtxSequence val) :: context))
        with (aggregate_context
                (set_all_context a
                   (<[key := aggregate_data (default [] (all_context a !! key)) val]>
                      (all_context a))) context).
      rewrite aggregate_context_untouched.
      * simpl. by rewrite lookup_insert_eq.
      * intros val' Hin'. apply Hk. apply list_elem_of_fmap.
        by exists (key, CtxSequence val').
    + assert (k ≠ key) as Hne.
      { intros ->. apply Hk. apply list_elem_of_fmap.
        by exists (key, CtxSequence val). }
      destruct v as [val0 |].
      * change (aggregate_context a ((k, CtxSequence val0) :: context))
          with (aggregate_context
                  (set_all_context a
                     (<[k := aggregate_data (default [] (all_context a !! k)) val0]>
                        (all_context a))) context).
        rewrite IH by done. simpl. by rewrite lookup_insert_ne.
      * change (aggregate_context a ((k, CtxOther) :: context))
          with (aggregate_context a context).
        by apply IH.
Qed.

Lemma aggregated_context (self : Reporter) (b : Batch) :
  all_context (aggregated self b)
  = all_context (aggregate_context (acc self) (b_context b)).
Proof.
  unfold aggregated.
  set (a0 := if negb (is_memory_efficient self) then _ else _).
  assert (all_context (aggregate_context a0 (b_context b))
          = all_context (aggregate_context (acc self) (b_context b))) as <-.
  { assert (all_context a0 = all_context (acc self)) as Ha0.
    { subst a0. by destruct (is_memory_efficient self). }
    unfold aggregate_context. clearbody a0. revert Ha0.
    generalize (acc self) as a1. revert a0.
    induction (b_context b) as [| [k v] context IH]; intros a0 a1 Ha; simpl;
      [done |].
    apply IH. destruct v; simpl; [by rewrite Ha | done]. }
  by destruct (b_loss b).
Qed.

(** X1 -- The auxiliary context after a call: every keyword whose value is a
    tensor or a list has that value appended to the buffer of its key,
    which starts empty; every other key keeps its buffer. *)
Theorem add_batch_stats_context (self s : Reporter) (b : Batch) :
  NoDup (b_context b).*1 →
  ClassificationMetricReporter.add_batch_stats self b = Ok s →
  (∀ key val,
     (key, CtxSequence val) ∈ b_context b →
     all_context (acc s) !! key
     = Some (default [] (all_context (acc self) !! key) ++ val))
  ∧ (∀ key,
       (∀ val, (key, CtxSequence val) ∉ b_context b) →
       all_context (acc s) !! key = all_context (acc self) !! key).
Proof.
  intros Hnd. rewrite add_batch_stats_unfold.
  destruct (recorded_batch_size _) as [n |]; simpl; [| done].
  intros [= <-]. simpl. rewrite aggregated_context. split.
  - intros key val Hin. by apply aggregate_context_appended.
  - intros key Hno. by apply aggregate_context_untouched.
Qed.

Lemma add_batch_stats_context_witness :
  ∃ s, ClassificationMetricReporter.add_batch_stats (example_self false)
         example_batch_1 = Ok s
       ∧ all_context (acc s) !! "text" = Some [PInt 11; PInt 12]
       ∧ all_context (acc s) !! "stage" = None.
Proof.
  eexists. split; [reflexivity |].
  assert (NoDup (b_context example_batch_1).*1) as Hnd.
  { apply (bool_decide_unpack _). reflexivity. }
  destruct (add_batch_stats_context (example_self false) _ example_batch_1
              Hnd eq_refl) as [Hseq Hother].
  split.
  - apply (Hseq "text" [PInt 11; PInt 12]). left.
  - rewrite (Hother "stage"); [reflexivity |].
    intros val Hin. cbn in Hin. rewrite !elem_of_cons, elem_of_nil in Hin.
    destruct Hin as [H | [H | []]]; discriminate H.
Defined.

Lemma aggregated_loss (self : Reporter) (b : Batch) :
  all_loss (aggregated self b) = all_loss (acc self) ++ option_list (b_loss b).
Proof.
  unfold aggregated.
  set (a0 := if negb (is_memory_efficient self) then _ else _).
  pose proof (aggregate_context_buffers a0 (b_context b)) as
    (_ & _ & _ & _ & Hl & _). simpl in Hl.
  assert (all_loss a0 = all_loss (acc self)) as Ha0.
  { subst a0. by destruct (is_memory_efficient self). }
  destruct (b_loss b); simpl; rewrite Hl, Ha0; [done | by rewrite app_nil_r].
Qed.

Lemma pass_trace (s0 : Reporter) (batches : list Batch) :
  (Forall (λ b, b_m_input b ≠ InputTuple []) batches →
   ∃ s, fold_result ClassificationMetricReporter.add_batch_stats s0 batches = Ok s
        ∧ length (batch_size (acc s))
          = (length (batch_size (acc s0)) + length batches)%nat
        ∧ all_loss (acc s) = all_loss (acc s0) ++ omap b_loss batches)
  ∧ (Exists (λ b, b_m_input b = InputTuple []) batches →
     fold_result ClassificationMetricReporter.add_batch_stats s0 batches
     = Raise IndexError).
Proof.
  revert s0. induction batches as [| b batches IH]; intros s0.
  - split.
    + intros _. exists s0. simpl. rewrite app_nil_r. split; [done |]. split; [lia | done].
    + intros H. by apply Exists_nil in H.
  - cbn [fold_result]. rewrite add_batch_stats_unfold.
    destruct (b_m_input b) as [[| m0 ms] | pending] eqn:Einput; cbn [recorded_batch_size bind].
    + split; [intros [Hb _]%Forall_cons; congruence | done].
    + pose proof (aggregated_buffers s0 b) as (_ & _ & _ & Hbs & _).
      rewrite Hbs.
      match goal with |- context [fold_result _ ?s1 batches] =>
        destruct (IH s1) as [IHok IHbad] end.
      simpl in IHok. rewrite aggregated_loss, length_app in IHok. split.
      * intros [_ Hrest]%Forall_cons.
        destruct (IHok Hrest) as (s & Hrun & Hlen & Hloss).
        exists s. split; [exact Hrun |]. split; [simpl in *; lia |].
        rewrite Hloss, <- app_assoc. f_equal.
        change (omap b_loss (b :: batches))
          with (match b_loss b with
                | Some l => l :: omap b_loss batches
                | None => omap b_loss batches
                end).
        by destruct (b_loss b).
      * intros [Hb | Hrest]%Exists_cons; [congruence | by apply IHbad].
    + pose proof (aggregated_buffers s0 b) as (_ & _ & _ & Hbs & _).
      rewrite Hbs.
      match goal with |- context [fold_result _ ?s1 batches] =>
        destruct (IH s1) as [IHok IHbad] end.
      simpl in IHok. rewrite aggregated_loss, length_app in IHok. split.
      * intros [_ Hrest]%Forall_cons.
        destruct (IHok Hrest) as (s & Hrun & Hlen & Hloss).
        exists s. split; [exact Hrun |]. split; [simpl in *; lia |].
        rewrite Hloss, <- app_assoc. f_equal.
        change (omap b_loss (b :: batches))
          with (match b_loss b with
                | Some l => l :: omap b_loss batches
                | None => omap b_loss batches
                end).
        by destruct (b_loss b).
      * intros [Hb | Hrest]%Exists_cons; [congruence | by apply IHbad].
Qed.

(** X2 -- A pass of the single-label reporter raises, with an [IndexError],
    exactly when some batch comes with an empty tuple as model input.
    Otherwise it records one batch size per batch, and the losses of the
    batches that have one, in order; a batch without loss leaves no
    entry. *)
Theorem pass_batch_sizes_and_losses (self : Reporter) (batches : list Batch) :
  (Forall (λ b, b_m_input b ≠ InputTuple []) batches →
   ∃ s, run_pass ClassificationMetricReporter.add_batch_stats self batches = Ok s
        ∧ length (batch_size (acc s)) = length batches
        ∧ all_loss (acc s) = omap b_loss batches)
  ∧ (Exists (λ b, b_m_input b = InputTuple []) batches →
     run_pass ClassificationMetricReporter.add_batch_stats self batches
     = Raise IndexError).
Proof.
  unfold run_pass.
  destruct (pass_trace (set_acc self _reset) batches) as [Hok Hbad].
  split; [| exact Hbad].
  intros Hall. destruct (Hok Hall) as (s & Hrun & Hlen & Hloss).
  exists s. done.
Qed.

(** ** The memory-efficiency flag *)

Lemma aggregate_context_set_all_scores (a : Accumulation)
    (context : list (string * ContextValue)) (x : list pyval) :
  aggregate_context (set_all_scores a x) context
  = set_all_scores (aggregate_context a context) x.
Proof.
  unfold aggregate_context. revert a.
  induction context as [| [k v] context IH]; intros a; simpl; [done |].
  destruct v as [val |]; simpl; [| apply IH].
  rewrite <- IH. reflexivity.
Qed.

Lemma aggregated_without_scores (self : Reporter) (b : Batch) :
  set_all_scores (aggregated self b) []
  = set_all_scores (aggregated (set_is_memory_efficient self true) b) [].
Proof.
  unfold aggregated. simpl.
  destruct (is_memory_efficient self); simpl; [done |].
  unfold aggregate_scores. rewrite aggregate_context_set_all_scores.
  by destruct (b_loss b).
Qed.

(** X3 -- The memory-efficiency flag changes nothing in what a call does but
    the score buffer: with the flag set either way the call raises the
    same exception, or leaves the same predictions, targets, context,
    losses, batch sizes and settings. *)
Theorem flag_changes_scores_only (self : Reporter) (b : Batch) (flag : bool) :
  match ClassificationMetricReporter.add_batch_stats self b,
        ClassificationMetricReporter.add_batch_stats
          (set_is_memory_efficient self flag) b with
  | Ok s, Ok s' => without_scores s = without_scores s'
  | Raise e, Raise e' => e = e'
  | _, _ => False
  end.
Proof.
  rewrite !add_batch_stats_unfold.
  destruct (recorded_batch_size (b_m_input b)) as [n |]; simpl; [| done].
  unfold without_scores, set_is_memory_efficient, set_acc. simpl. f_equal.
  pose proof (aggregated_without_scores self b) as H1.
  pose proof (aggregated_without_scores (set_is_memory_efficient self flag) b) as H2.
  change (set_is_memory_efficient (set_is_memory_efficient self flag) true)
    with (set_is_memory_efficient self true) in H2.
  rewrite <- H2 in H1. clear H2.
  unfold set_all_scores, set_batch_size in *. simpl in *.
  injection H1 as Hn Hp Ht Hc Hl Hb Hk.
  by rewrite Hn, Hp, Ht, Hc, Hl, Hb, Hk.
Qed.

(** ** Aligned batches with the scores kept *)

Lemma zip_longest_same_length {A : Type} (fill : A) (a b c : list A) :
  length a = length b → length b = length c →
  zip_longest fill a b c = zip3 a b c.
Proof.
  intros Hab Hbc. destruct (zip3_same_length a b c Hab Hbc) as [Hlen Hlook].
  apply list_eq. intros i.
  destruct (decide (i < length a)%nat) as [Hi | Hi].
  - rewrite lookup_zip_longest by lia.
    destruct (lookup_lt_is_Some_2 a i Hi) as [x Hx].
    destruct (lookup_lt_is_Some_2 b i ltac:(lia)) as [y Hy].
    destruct (lookup_lt_is_Some_2 c i ltac:(lia)) as [z Hz].
    rewrite (Hlook i x y z Hx Hy Hz), Hx, Hy, Hz. done.
  - rewrite !(lookup_ge_None_2 _ i); [done | lia |].
    rewrite length_zip_longest. lia.
Qed.

Lemma scores_kept_pass (s0 s : Reporter) (batches : list Batch) :
  is_memory_efficient s0 = false →
  fold_result ClassificationMetricReporter.add_batch_stats s0 batches = Ok s →
  all_scores (acc s)
  = all_scores (acc s0) ++ (float_row <$> concat (b_scores <$> batches))
  ∧ all_preds (acc s) = all_preds (acc s0) ++ concat (b_preds <$> batches)
  ∧ all_targets (acc s) = all_targets (acc s0) ++ concat (b_targets <$> batches).
Proof.
  revert s0. induction batches as [| b batches IH]; intros s0 Hmem; simpl.
  - intros [= <-]. by rewrite !app_nil_r.
  - destruct (ClassificationMetricReporter.add_batch_stats s0 b) as [s1 | e] eqn:E1;
      simpl; [| done].
    intros Hrest.
    apply add_batch_stats_buffers in E1 as (Hp & Ht & Hs & _ & Hm & _).
    rewrite Hmem in Hs, Hm.
    destruct (IH s1 Hm Hrest) as (Hs' & Hp' & Ht').
    rewrite Hs', Hp', Ht', Hs, Hp, Ht, fmap_app, <- !app_assoc. done.
Qed.

(** X4 -- With the scores kept, a pass over batches that bring as many
    predictions and targets as score rows keeps the three buffers at the
    same length, one entry per example, and the padding zip of the
    single-label [calculate_metric] pads nothing: its input is the
    plain zip of the three buffers, the very list the multi-label
    [calculate_metric] builds. *)
Theorem aligned_pass_inputs (self s : Reporter) (batches : list Batch) :
  is_memory_efficient self = false →
  Forall aligned batches →
  run_pass ClassificationMetricReporter.add_batch_stats self batches = Ok s →
  all_scores (acc s) = float_row <$> concat (b_scores <$> batches)
  ∧ length (all_preds (acc s)) = length (all_scores (acc s))
  ∧ length (all_targets (acc s)) = length (all_scores (acc s))
  ∧ ClassificationMetricReporter.label_predictions s
    = zip3 (all_scores (acc s)) (all_preds (acc s)) (all_targets (acc s))
  ∧ ClassificationMetricReporter.label_predictions s
    = MultiLabelClassificationMetricReporter.label_list_predictions s.
Proof.
  intros Hmem Haligned Hpass. unfold run_pass in Hpass.
  apply scores_kept_pass in Hpass as (Hs & Hp & Ht); [| done].
  simpl in Hs, Hp, Ht.
  assert (length (concat (b_preds <$> batches))
          = length (concat (b_scores <$> batches))
          ∧ length (concat (b_targets <$> batches))
            = length (concat (b_scores <$> batches))) as [Hlp Hlt].
  { clear Hs Hp Ht Hmem.
    induction Haligned as [| b batches [Hbp Hbt] _ [IHp IHt]]; csimpl; [done |].
    rewrite !length_app. split; lia. }
  assert (length (all_preds (acc s)) = length (all_scores (acc s))) as Hps.
  { by rewrite Hs, Hp, length_fmap. }
  assert (length (all_targets (acc s)) = length (all_scores (acc s))) as Hts.
  { by rewrite Hs, Ht, length_fmap. }
  assert (ClassificationMetricReporter.label_predictions s
          = zip3 (all_scores (acc s)) (all_preds (acc s)) (all_targets (acc s)))
    as Hzip.
  { unfold ClassificationMetricReporter.label_predictions.
    apply zip_longest_same_length; congruence. }
  repeat split; done.
Qed.

Lemma aligned_pass_inputs_witness :
  ∃ s, run_pass ClassificationMetricReporter.add_batch_stats (example_self false)
         [example_batch_1; example_batch_2] = Ok s
       ∧ ClassificationMetricReporter.label_predictions s
         = [ (float_row [7 # 10; 2 # 10; 1 # 10]%Q, PInt 0, PInt 0);
             (float_row [1 # 10; 3 # 10; 6 # 10]%Q, PInt 2, PInt 0);
             (float_row [2 # 10; 5 # 10; 3 # 10]%Q, PInt 1, PInt 1) ].
Proof.
  eexists. split; [reflexivity |].
  assert (Forall aligned [example_batch_1; example_batch_2]) as Haligned.
  { repeat constructor. }
  destruct (aligned_pass_inputs (example_self false) _
              [example_batch_1; example_batch_2] eq_refl Haligned eq_refl)
    as (_ & _ & _ & Hzip & _).
  rewrite Hzip. reflexivity.
Defined.

(** ** Human-readable reports *)

Lemma py_getitem_mod {A : Type} (l : list A) (i : Z) (x : A) :
  py_getitem l i = Ok x
  ↔ - Z.of_nat (length l) ≤ i < Z.of_nat (length l)
    ∧ l !! Z.to_nat (i `mod` Z.of_nat (length l)) = Some x.
Proof.
  unfold py_getitem. set (n := Z.of_nat (length l)).
  destruct (i <? 0) eqn:Hneg.
  - apply Z.ltb_lt in Hneg.
    destruct ((0 <=? n + i) && (n + i <? n)) eqn:Hrange.
    + apply andb_true_iff in Hrange as [Hlo Hhi].
      assert (i `mod` n = n + i) as ->.
      { rewrite <- (Z.mod_add i 1 n) by lia. rewrite Z.mod_small; lia. }
      destruct (l !! Z.to_nat (n + i)) eqn:E.
      * split; [intros [= ->]; split; [lia | done] | by intros [_ [= ->]]].
      * split; [done | by intros [_ ?]].
    + split; [done |]. intros [Hi _]. apply andb_false_iff in Hrange. lia.
  - apply Z.ltb_ge in Hneg.
    destruct ((0 <=? i) && (i <? n)) eqn:Hrange.
    + apply andb_true_iff in Hrange as [Hlo Hhi].
      rewrite Z.mod_small by lia.
      destruct (l !! Z.to_nat i) eqn:E.
      * split; [intros [= ->]; split; [lia | done] | by intros [_ [= ->]]].
      * split; [done | by intros [_ ?]].
    + split; [done |]. intros [Hi _]. apply andb_false_iff in Hrange. lia.
Qed.

Lemma Forall2_map_result {A B : Type} (f : A → result B) (xs : list A) (ys : list B) :
  Forall2 (λ x y, f x = Ok y) xs ys → map_result f xs = Ok ys.
Proof.
  induction 1 as [| x y xs ys Hxy _ IH]; simpl; [done |].
  by rewrite Hxy, IH.
Qed.

Lemma py_index_names_label (names : list string) (v : pyval) (name : string) :
  py_index names v = Ok name ↔ names_label names v name.
Proof.
  unfold names_label. destruct v as [i | q | l]; simpl.
  - rewrite py_getitem_mod. split.
    + intros [Hi Hl]. by exists i.
    + by intros (i' & [= <-] & Hi & Hl).
  - split; [done | by intros (i & ? & _)].
  - split; [done | by intros (i & ? & _)].
Qed.

Lemma map_result_py_index (names : list string) (vs : list pyval) (out : list string) :
  map_result (py_index names) vs = Ok out ↔ Forall2 (names_label names) vs out.
Proof.
  split.
  - intros H%map_result_Forall2.
    eapply Forall2_impl; [exact H |]. intros v name. apply py_index_names_label.
  - intros H. apply Forall2_map_result.
    eapply Forall2_impl; [exact H |]. intros v name. apply py_index_names_label.
Qed.

(** X5 -- The single-label reports return exactly when every accumulated entry
    is an integer between minus the size of the catalogue and the size,
    and then give one name per example: the label at that offset, an
    offset below zero counting from the end of the catalogue. *)
Theorem single_label_reports (self : Reporter) (out : list string) :
  (SingleLabelReport.predictions_to_report self = Ok out
   ↔ Forall2 (names_label (label_names self)) (all_preds (acc self)) out)
  ∧ (SingleLabelReport.targets_to_report self = Ok out
     ↔ Forall2 (names_label (label_names self)) (all_targets (acc self)) out).
Proof. split; apply map_result_py_index. Qed.

Lemma label_index_lookup (names : list string) (k : nat) (x : string) :
  NoDup names → names !! k = Some x → label_index names x = Z.of_nat k.
Proof.
  revert k. induction names as [| n names IH]; intros k Hnd Hk; [done |].
  apply NoDup_cons in Hnd as [Hn Hnd]. simpl.
  destruct k as [| k]; simpl in Hk.
  - injection Hk as ->. by rewrite bool_decide_eq_true_2.
  - rewrite bool_decide_eq_false_2.
    + rewrite (IH k) by done. lia.
    + intros ->. apply Hn. by eapply list_elem_of_lookup_2.
Qed.

(** X6 -- Round trip: with a catalogue free of duplicates, looking the
    reported names up in the catalogue gives back the accumulated
    indices. *)
Theorem predictions_to_report_round_trip (self : Reporter) (idxs : list Z) :
  NoDup (label_names self) →
  forallb (in_catalogue (label_names self)) idxs = true →
  all_preds (acc self) = PInt <$> idxs →
  ∃ out, SingleLabelReport.predictions_to_report self = Ok out
         ∧ label_index (label_names self) <$> out = idxs.
Proof.
  intros Hnd Hidx Hpreds. unfold SingleLabelReport.predictions_to_report.
  rewrite Hpreds, map_result_in_catalogue by done.
  eexists. split; [reflexivity |].
  rewrite <- list_fmap_compose. clear Hpreds.
  induction idxs as [| i idxs IH]; csimpl; [done |].
  cbn [forallb] in Hidx. apply andb_true_iff in Hidx as [Hi Hidx].
  f_equal; [| by apply IH].
  unfold in_catalogue in Hi. apply andb_true_iff in Hi as [Hlo Hhi].
  unfold label_name.
  destruct (label_names self !! Z.to_nat i) as [x |] eqn:E;
    [| apply lookup_ge_None in E; lia].
  simpl. rewrite (label_index_lookup _ _ _ Hnd E). lia.
Qed.

Lemma predictions_to_report_round_trip_witness :
  ∃ out, SingleLabelReport.predictions_to_report example_reported = Ok out
         ∧ label_index ["a"; "b"; "c"] <$> out = [0; 2; 1].
Proof.
  apply (predictions_to_report_round_trip example_reported [0; 2; 1]).
  - apply (bool_decide_unpack _). reflexivity.
  - reflexivity.
  - reflexivity.
Defined.

Example targets_to_report_from_the_end :
  SingleLabelReport.targets_to_report example_reported = Ok ["a"; "b"; "c"].
Proof. reflexivity. Qed.

(** ** The multi-label reports *)

Lemma py_getitem_nat {A : Type} (l : list A) (k : nat) :
  py_getitem l (Z.of_nat k)
  = match l !! k with Some x => Ok x | None => Raise IndexError end.
Proof.
  unfold py_getitem.
  assert ((Z.of_nat k <? 0) = false) as -> by (apply Z.ltb_ge; lia).
  rewrite Nat2Z.id.
  destruct (l !! k) eqn:E.
  - apply lookup_lt_Some in E.
    assert ((0 <=? Z.of_nat k) && (Z.of_nat k <? Z.of_nat (length l)) = true) as ->;
      [| done].
    apply andb_true_iff. split; [apply Z.leb_le | apply Z.ltb_lt]; lia.
  - by destruct ((0 <=? Z.of_nat k) && (Z.of_nat k <? Z.of_nat (length l))).
Qed.

(** The names picked by the indicators from position [k] on. *)
Lemma indicator_names_from (names : list string) (items : list pyval) (k : nat) :
  ((∀ idx p, items !! idx = Some p → py_eq_int p 1 = true →
             (k + idx < length names)%nat) →
   map_result (λ ip : Z * pyval, py_getitem names ip.1)
     (filter (λ ip, py_eq_int ip.2 1 = true)
        (imap (λ i x, (Z.of_nat (k + i), x)) items))
   = Ok (filter (λ np : string * pyval, py_eq_int np.2 1 = true)
           (zip (drop k names) items)).*1)
  ∧ ((∃ idx p, items !! idx = Some p ∧ py_eq_int p 1 = true
               ∧ (length names ≤ k + idx)%nat) →
     map_result (λ ip : Z * pyval, py_getitem names ip.1)
       (filter (λ ip, py_eq_int ip.2 1 = true)
          (imap (λ i x, (Z.of_nat (k + i), x)) items))
     = Raise IndexError).
Proof.
  revert k. induction items as [| p items IH]; intros k.
  - split; [intros _; by rewrite zip_with_nil_r | by intros (idx & q & ? & _)].
  - rewrite imap_cons.
    rewrite (imap_ext _ (λ i x, (Z.of_nat (S k + i), x)))
      by (intros i x _; simpl; do 2 f_equal; lia).
    destruct (IH (S k)) as [IHok IHbad].
    rewrite filter_cons. cbn [snd]. rewrite Nat.add_0_r.
    destruct (py_eq_int p 1) eqn:Hp.
    + rewrite decide_True by done. cbn [map_result fst]. rewrite py_getitem_nat.
      destruct (names !! k) as [l |] eqn:Hk.
      * cbn [bind]. rewrite (drop_S _ _ _ Hk). cbn [zip zip_with].
        rewrite filter_cons. cbn [snd]. rewrite decide_True by done. split.
        -- intros Hin. rewrite IHok; [done |].
           intros idx q Hq Hq1. specialize (Hin (S idx) q Hq Hq1). lia.
        -- intros (idx & q & Hq & Hq1 & Hidx).
           destruct idx as [| idx].
           ++ apply lookup_lt_Some in Hk. lia.
           ++ rewrite IHbad; [done |]. exists idx, q. repeat split; [done.. | lia].
      * cbn [bind]. split; [| done].
        intros Hin. specialize (Hin 0%nat p eq_refl Hp).
        apply lookup_ge_None in Hk. lia.
    + rewrite decide_False by done. split.
      * intros Hin. rewrite IHok.
        -- f_equal. f_equal.
           destruct (names !! k) as [l |] eqn:Hk.
           ++ rewrite (drop_S _ _ _ Hk). cbn [zip zip_with].
              rewrite filter_cons. cbn [snd].
              rewrite decide_False by congruence. done.
           ++ apply lookup_ge_None in Hk.
              rewrite !drop_ge by lia. done.
        -- intros idx q Hq Hq1. specialize (Hin (S idx) q Hq Hq1). lia.
      * intros (idx & q & Hq & Hq1 & Hidx).
        destruct idx as [| idx]; [simpl in Hq; congruence |].
        rewrite IHbad; [done |]. exists idx, q. repeat split; [done.. | lia].
Qed.

(** X7 -- The multi-label [predictions_to_report] on one prediction vector:
    when every indicator equal to 1 sits at a position of the catalogue,
    the names of exactly those positions are reported, in catalogue
    order; an indicator equal to 1 beyond the catalogue is an
    [IndexError], while other values out there are ignored. *)
Theorem multi_label_predicted_names (names : list string) (items : list pyval) :
  ((∀ idx p, items !! idx = Some p → py_eq_int p 1 = true →
             (idx < length names)%nat) →
   MultiLabelReport.predicted_names names (PList items)
   = Ok (filter (λ np : string * pyval, py_eq_int np.2 1 = true)
           (zip names items)).*1)
  ∧ ((∃ idx p, items !! idx = Some p ∧ py_eq_int p 1 = true
               ∧ (length names ≤ idx)%nat) →
     MultiLabelReport.predicted_names names (PList items) = Raise IndexError).
Proof.
  unfold MultiLabelReport.predicted_names, enumerate. cbn [py_iter bind].
  exact (indicator_names_from names items 0).
Qed.

Example multi_label_predicted_names_example :
  MultiLabelReport.predicted_names ["a"; "b"; "c"]
    (PList [PInt 1; PInt 0; PFloat 1; PInt 0; PInt 7]) = Ok ["a"; "c"]
  ∧ MultiLabelReport.predicted_names ["a"; "b"; "c"]
      (PList [PInt 0; PInt 0; PInt 0; PInt 1]) = Raise IndexError.
Proof. split; reflexivity. Qed.

(** X8 -- The multi-label [targets_to_report] never shows the sentinel: an
    entry equal to -1, wherever it stands in a target list, changes
    neither the reported names nor an error. *)
Theorem multi_label_targets_skip_sentinel
    (names : list string) (before after : list pyval) (sentinel : pyval) :
  py_eq_int sentinel (-1) = true →
  MultiLabelReport.target_names names (PList (before ++ sentinel :: after))
  = MultiLabelReport.target_names names (PList (before ++ after)).
Proof.
  intros Hs. unfold MultiLabelReport.target_names. cbn [py_iter bind].
  rewrite !filter_app, filter_cons, decide_False; [done |].
  rewrite Hs. done.
Qed.

Lemma multi_label_targets_skip_sentinel_witness :
  MultiLabelReport.target_names ["a"; "b"; "c"]
    (PList ([PInt 2] ++ PInt (-1) :: [PInt 0]))
  = MultiLabelReport.target_names ["a"; "b"; "c"] (PList ([PInt 2] ++ [PInt 0])).
Proof.
  exact (multi_label_targets_skip_sentinel ["a"; "b"; "c"] [PInt 2] [PInt 0]
           (PInt (-1)) eq_refl).
Defined.

Example multi_label_targets_example :
  MultiLabelReport.target_names ["a"; "b"; "c"] (PList [PInt 2; PInt (-1); PInt 0])
  = Ok ["c"; "a"].
Proof. reflexivity. Qed.

(** ** Building a reporter from a configuration *)

(** X9 -- A reporter that [from_config] returns obeys the two rules of the
    validation, and its label names and text columns come from one of
    two places.  Without tensorizers ([None] or an empty dictionary) the
    labels are the metadata's target vocabulary and the text columns are
    emptied, in the reporter and in the caller's configuration object;
    with tensorizers the labels are the vocabulary of the "labels"
    tensorizer and the configuration is left as it was. *)
Theorem from_config_builds_valid_reporter
    (config config' : Config) (meta : option CommonMetadata)
    (tensorizers : option (gmap string Tensorizer)) (r : Reporter) :
  from_config config meta tensorizers = Called config' (Ok r) →
  (needs_target_label (model_select_metric r) →
   target_label_in_catalogue (target_label r) (label_names r))
  ∧ (binary_only (model_select_metric r) → length (label_names r) = 2%nat)
  ∧ text_column_names r = cfg_text_column_names config'
  ∧ ((tensorizers = None ∨ tensorizers = Some ∅) →
     cfg_text_column_names config' = []
     ∧ ∃ m, meta = Some m ∧ label_names r = target_vocab_itos m)
  ∧ (∀ ts, tensorizers = Some ts → ts ≠ ∅ →
     config' = config
     ∧ ∃ t, ts !! "labels" = Some t ∧ label_names r = vocab t).
Proof.
  unfold from_config.
  assert (∀ m,
    Called (set_text_column_names config [])
      (from_config_and_label_names (set_text_column_names config [])
         (target_vocab_itos m)) = Called config' (Ok r) →
    (needs_target_label (model_select_metric r) →
     target_label_in_catalogue (target_label r) (label_names r))
    ∧ (binary_only (model_select_metric r) → length (label_names r) = 2%nat)
    ∧ text_column_names r = cfg_text_column_names config'
    ∧ cfg_text_column_names config' = []
    ∧ label_names r = target_vocab_itos m) as Hmeta.
  { intros m [= <- Hr].
    apply from_config_and_label_names_built in Hr as (-> & Hneed & Hbin). done. }
  destruct tensorizers as [ts |].
  - case_bool_decide as Hts.
    + destruct meta as [m |]; [| done]. intros H.
      destruct (Hmeta m H) as (Hneed & Hbin & Htext & Hempty & Hnames).
      split; [exact Hneed |]. split; [exact Hbin |]. split; [exact Htext |].
      split.
      * intros _. split; [exact Hempty | by exists m].
      * intros ts' [= <-] Hne. done.
    + destruct (ts !! "labels") as [t |] eqn:Et; [| done].
      intros [= <- Hr].
      apply from_config_and_label_names_built in Hr as (-> & Hneed & Hbin).
      split; [exact Hneed |]. split; [exact Hbin |]. split; [done |].
      split.
      * intros [H | [= ->]]; done.
      * intros ts' [= <-] _. split; [done | by exists t].
  - destruct meta as [m |]; [| done]. intros H.
    destruct (Hmeta m H) as (Hneed & Hbin & Htext & Hempty & Hnames).
    split; [exact Hneed |]. split; [exact Hbin |]. split; [exact Htext |].
    split.
    + intros _. split; [exact Hempty | by exists m].
    + intros ts' [=].
Qed.

Lemma from_config_builds_valid_reporter_witness :
  ∃ r, from_config example_config (Some example_meta) (Some example_tensorizers)
       = Called example_config (Ok r)
       ∧ label_names r = ["a"; "b"]
       ∧ text_column_names r = ["title"; "body"].
Proof.
  eexists. split; [reflexivity |].
  destruct (from_config_builds_valid_reporter example_config example_config
              (Some example_meta) (Some example_tensorizers) _ eq_refl)
    as (_ & _ & Htext & _ & Hts).
  split; [| exact Htext].
  destruct (Hts example_tensorizers eq_refl) as (_ & t & Ht & Hnames).
  - intros Hempty. discriminate (f_equal (λ m, m !! "labels") Hempty).
  - rewrite Hnames. injection Ht as <-. reflexivity.
Defined.

(** Without tensorizers the same configuration is checked against the
    three labels of the metadata, and [mcc] is refused; the caller's text
    columns are emptied all the same. *)
Example from_config_metadata_path :
  from_config example_config (Some example_meta) (Some ∅)
  = Called (set_text_column_names example_config []) (Raise AssertionError)
  ∧ from_config example_config (Some example_meta) None
    = Called (set_text_column_names example_config []) (Raise AssertionError).
Proof. split; reflexivity. Qed.

Example from_config_errors :
  from_config example_config None None = AttributeError_no_metadata
  ∧ from_config example_config (Some example_meta)
      (Some {[ "tokens" := mkTensorizer ["the"] ]})
    = Called example_config (Raise KeyError).
Proof. split; reflexivity. Qed.

(** ** The context of a batch *)

Lemma row_text_present {raw : Type} (py_str : raw → string)
    (columns : list string) (row : gmap string raw) :
  (∀ c, c ∈ columns → is_Some (row !! c)) →
  ∃ values, row_values row columns values
            ∧ row_text raw py_str columns row = Ok (join " | " (py_str <$> values)).
Proof.
  intros Hall. unfold row_text, row_values.
  assert (∃ values, Forall2 (λ c v, row !! c = Some v) columns values
                    ∧ map_result (λ column_name,
                                    let* v := row_get raw row column_name in
                                    Ok (py_str v)) columns
                      = Ok (py_str <$> values)) as (values & Hvals & ->).
  { induction columns as [| c columns IH].
    - exists []. split; [constructor | done].
    - destruct IH as (values & Hvals & Hmap).
      { intros c' Hc'. apply Hall. by right. }
      destruct (Hall c) as [v Hv]; [left |].
      exists (v :: values). split; [by constructor |].
      cbn [map_result]. unfold row_get at 1. rewrite Hv. cbn [bind].
      rewrite Hmap. done. }
  exists values. done.
Qed.

Lemma column_present {raw : Type} (c : string) (rows : list (gmap string raw)) :
  Forall (λ row, is_Some (row !! c)) rows →
  ∃ values, Forall2 (λ row v, row !! c = Some v) rows values
            ∧ map_result (λ row, row_get raw row c) rows = Ok values.
Proof.
  induction 1 as [| row rows [v Hv] _ (values & Hvals & Hmap)].
  - exists []. split; [constructor | done].
  - exists (v :: values). split; [by constructor |].
    cbn [map_result]. unfold row_get at 1. rewrite Hv. cbn [bind].
    by rewrite Hmap.
Qed.

Lemma additional_columns_present {raw : Type} (columns : list string)
    (rows : list (gmap string raw)) (context : gmap string (ContextColumn raw)) :
  (∀ c, c ∈ columns → Forall (λ row, is_Some (row !! c)) rows) →
  ∃ context',
    fold_result
      (λ context additional_colname,
         let* values := map_result (λ row, row_get raw row additional_colname) rows in
         Ok (<[additional_colname := RawColumn raw values]> context))
      context columns = Ok context'
    ∧ (∀ c, c ∈ columns →
            ∃ values, context' !! c = Some (RawColumn raw values)
                      ∧ Forall2 (λ row v, row !! c = Some v) rows values)
    ∧ (∀ k, k ∉ columns → context' !! k = context !! k).
Proof.
  revert context. induction columns as [| c columns IH]; intros context Hall.
  - exists context. split; [done |]. split; [| done].
    intros c Hc. by apply elem_of_nil in Hc.
  - destruct (column_present c rows) as (values & Hvals & Hmap).
    { apply Hall. left. }
    destruct (IH (<[c := RawColumn raw values]> context)) as (context' & Hrun & Hin & Hout).
    { intros c' Hc'. apply Hall. by right. }
    exists context'. split.
    { cbn [fold_result]. rewrite Hmap. cbn [bind]. exact Hrun. }
    split.
    + intros c' [-> | Hc']%elem_of_cons; [| by apply Hin].
      destruct (decide (c ∈ columns)) as [Hc | Hc]; [by apply Hin |].
      exists values. split; [| done].
      rewrite Hout by done. apply lookup_insert_eq.
    + intros k Hk. apply not_elem_of_cons in Hk as [Hne Hk].
      rewrite Hout by done. by apply lookup_insert_ne.
Qed.

(** X10 -- When every row has the columns the reporter reads, [batch_context]
    returns the base class's context with two kinds of entries added:
    under every additional column name the raw values of that column,
    one per row; and under "text", unless an additional column is itself
    called "text" and replaces it, one text per row, the row's text
    columns turned into strings and joined by " | ".  No other key is
    touched. *)
Theorem batch_context_columns {raw : Type} (py_str : raw → string)
    (super_context : gmap string (ContextColumn raw)) (self : Reporter)
    (raw_batch : list (gmap string raw)) :
  Forall (has_columns self) raw_batch →
  ∃ context,
    batch_context raw py_str super_context self raw_batch = Ok context
    ∧ (∀ c, c ∈ additional_column_names self →
            ∃ values, context !! c = Some (RawColumn raw values)
                      ∧ Forall2 (λ row v, row !! c = Some v) raw_batch values)
    ∧ ("text" ∉ additional_column_names self →
       ∃ texts, context !! "text" = Some (TextColumn raw texts)
                ∧ Forall2 (λ row text,
                             ∃ values,
                               row_values row (text_column_names self) values
                               ∧ text = join " | " (py_str <$> values))
                    raw_batch texts)
    ∧ (∀ k, k ≠ "text" → k ∉ additional_column_names self →
            context !! k = super_context !! k).
Proof.
  intros Hrows. unfold batch_context.
  assert (∃ texts,
            map_result (row_text raw py_str (text_column_names self)) raw_batch
            = Ok texts
            ∧ Forall2 (λ row text,
                         ∃ values,
                           row_values row (text_column_names self) values
                           ∧ text = join " | " (py_str <$> values))
                raw_batch texts) as (texts & -> & Htexts).
  { induction Hrows as [| row rows Hrow _ (texts & Hmap & Htexts)].
    - exists []. split; [done | constructor].
    - destruct (row_text_present py_str (text_column_names self) row)
        as (values & Hvals & Htext).
      { intros c Hc. apply Hrow. apply elem_of_app. by left. }
      exists (join " | " (py_str <$> values) :: texts). split.
      + cbn [map_result]. rewrite Htext. cbn [bind]. by rewrite Hmap.
      + constructor; [by exists values | done]. }
  cbn [bind].
  destruct (additional_columns_present (additional_column_names self) raw_batch
              (<["text" := TextColumn raw texts]> super_context))
    as (context' & Hrun & Hin & Hout).
  { intros c Hc. eapply Forall_impl; [exact Hrows |].
    intros row Hrow. apply Hrow. apply elem_of_app. by right. }
  exists context'. split.
  { destruct (additional_column_names self) as [| c cs] eqn:Hadd.
    - cbn. cbn in Hrun. by injection Hrun as <-.
    - exact Hrun. }
  split; [exact Hin |]. split.
  - intros Htext. exists texts. split; [| exact Htexts].
    rewrite Hout by done. apply lookup_insert_eq.
  - intros k Hk Hkadd. rewrite Hout by done. by apply lookup_insert_ne.
Qed.

Lemma map_result_raise {A B : Type} (f : A → result B) (xs : list A) (e : exn) :
  map_result f xs = Raise e → ∃ x, x ∈ xs ∧ f x = Raise e.
Proof.
  induction xs as [| x xs IH]; cbn [map_result]; [done |].
  destruct (f x) as [y | e'] eqn:Ex; cbn [bind].
  - destruct (map_result f xs) as [ys | e'']; cbn [bind]; [done |].
    intros [= ->]. destruct IH as (x' & Hin & Hx'); [done |].
    exists x'. split; [by right | done].
  - intros [= ->]. exists x. split; [left | done].
Qed.

Lemma map_result_ok {A B : Type} (f : A → result B) (xs : list A) (ys : list B) :
  map_result f xs = Ok ys → ∀ x, x ∈ xs → ∃ y, f x = Ok y.
Proof.
  intros H%map_result_Forall2 x Hx.
  induction H as [| x' y xs ys Hxy _ IH]; [by apply elem_of_nil in Hx |].
  apply elem_of_cons in Hx as [-> | Hx]; eauto.
Qed.

Lemma fold_result_raise {A S : Type} (f : S → A → result S) (s0 : S)
    (xs : list A) (e : exn) :
  fold_result f s0 xs = Raise e → ∃ s x, x ∈ xs ∧ f s x = Raise e.
Proof.
  revert s0. induction xs as [| x xs IH]; intros s0; cbn [fold_result]; [done |].
  destruct (f s0 x) as [s1 | e'] eqn:Ex; cbn [bind].
  - intros (s & x' & Hin & Hx')%IH. exists s, x'. split; [by right | done].
  - intros [= ->]. exists s0, x. split; [left | done].
Qed.

Lemma fold_result_ok {A S : Type} (f : S → A → result S) (s0 s : S) (xs : list A) :
  fold_result f s0 xs = Ok s → ∀ x, x ∈ xs → ∃ s1 s2, f s1 x = Ok s2.
Proof.
  revert s0. induction xs as [| x' xs IH]; intros s0; cbn [fold_result].
  - intros _ x Hx. by apply elem_of_nil in Hx.
  - destruct (f s0 x') as [s1 | e'] eqn:Ex; cbn [bind]; [| done].
    intros Hrest x [-> | Hx]%elem_of_cons; [eauto | by eapply IH].
Qed.

Lemma row_get_raise {raw : Type} (row : gmap string raw) (c : string) (e : exn) :
  row_get raw row c = Raise e → e = KeyError ∧ row !! c = None.
Proof. unfold row_get. destruct (row !! c); [done | by intros [= <-]]. Qed.

Lemma row_text_raise {raw : Type} (py_str : raw → string) (columns : list string)
    (row : gmap string raw) (e : exn) :
  row_text raw py_str columns row = Raise e → e = KeyError.
Proof.
  unfold row_text.
  destruct (map_result _ columns) as [parts | e'] eqn:E; cbn [bind]; [done |].
  intros [= ->]. apply map_result_raise in E as (c & _ & Hc).
  destruct (row_get raw row c) as [v | e''] eqn:Er; cbn [bind] in Hc; [done |].
  injection Hc as ->. by apply row_get_raise in Er as [-> _].
Qed.

(** X11 -- A row that lacks one of the text columns or of the additional
    columns makes [batch_context] raise a [KeyError]. *)
Theorem batch_context_missing_column {raw : Type} (py_str : raw → string)
    (super_context : gmap string (ContextColumn raw)) (self : Reporter)
    (raw_batch : list (gmap string raw)) (row : gmap string raw) (c : string) :
  row ∈ raw_batch →
  c ∈ text_column_names self ++ additional_column_names self →
  row !! c = None →
  batch_context raw py_str super_context self raw_batch = Raise KeyError.
Proof.
  intros Hrow Hc Hmissing. unfold batch_context.
  destruct (map_result (row_text raw py_str (text_column_names self)) raw_batch)
    as [texts | e] eqn:Etexts; cbn [bind].
  - assert (c ∈ additional_column_names self) as Hadd.
    { apply elem_of_app in Hc as [Hc | Hc]; [| done]. exfalso.
      destruct (map_result_ok _ _ _ Etexts row Hrow) as [text Htext].
      unfold row_text in Htext.
      destruct (map_result _ (text_column_names self)) as [parts |] eqn:Eparts;
        cbn [bind] in Htext; [| done].
      destruct (map_result_ok _ _ _ Eparts c Hc) as [part Hpart].
      unfold row_get in Hpart. by rewrite Hmissing in Hpart. }
    destruct (additional_column_names self) as [| c0 cs] eqn:Ecols;
      [by apply elem_of_nil in Hadd |].
    cbn [length Nat.ltb Nat.leb].
    match goal with |- fold_result ?f ?s0 ?xs = _ =>
      destruct (fold_result f s0 xs) as [context | e] eqn:Efold end.
    + exfalso.
      destruct (fold_result_ok _ _ _ _ Efold c Hadd) as (s1 & s2 & Hstep).
      cbn beta in Hstep.
      destruct (map_result (λ row0, row_get raw row0 c) raw_batch)
        as [values |] eqn:Evalues; cbn [bind] in Hstep; [| done].
      destruct (map_result_ok _ _ _ Evalues row Hrow) as [v Hv].
      unfold row_get in Hv. by rewrite Hmissing in Hv.
    + f_equal. apply fold_result_raise in Efold as (s & c' & _ & Hstep).
      cbn beta in Hstep.
      destruct (map_result (λ row0, row_get raw row0 c') raw_batch)
        as [values | e'] eqn:Evalues; cbn [bind] in Hstep; [done |].
      injection Hstep as ->.
      apply map_result_raise in Evalues as (row' & _ & Hrow').
      by apply row_get_raise in Hrow' as [-> _].
  - f_equal. apply map_result_raise in Etexts as (row' & _ & Hrow').
    by apply row_text_raise in Hrow'.
Qed.

Lemma batch_context_columns_witness :
  ∃ context,
    batch_context string id ∅ example_text_reporter example_rows = Ok context
    ∧ context !! "text" = Some (TextColumn string ["t1 | b1"; "t2 | b2"])
    ∧ context !! "author" = Some (RawColumn string ["a1"; "a2"])
    ∧ context !! "title" = None.
Proof.
  assert (Forall (has_columns example_text_reporter) example_rows) as Hrows.
  { repeat constructor; intros c Hc; cbn in Hc;
      rewrite !elem_of_cons, elem_of_nil in Hc;
      destruct Hc as [-> | [-> | [-> | []]]]; by eexists. }
  destruct (batch_context_columns id ∅ example_text_reporter example_rows Hrows)
    as (context & Hrun & _ & _ & Hother).
  exists context. split; [exact Hrun |].
  assert (Ok context
          = batch_context string id ∅ example_text_reporter example_rows) as Hc
    by (symmetry; exact Hrun).
  split; [| split].
  - injection Hc as ->. reflexivity.
  - injection Hc as ->. reflexivity.
  - rewrite Hother; [reflexivity | done |].
    cbn. rewrite elem_of_cons, elem_of_nil. intros [? | []]; done.
Defined.

Lemma batch_context_missing_column_witness :
  batch_context string id ∅
    (__init__ ["a"; "b"] (Member ACCURACY) None ["title"] ["source"] [] false 3)
    example_rows = Raise KeyError.
Proof.
  apply (batch_context_missing_column id ∅ _ example_rows
           {[ "title" := "t1"; "body" := "b1"; "author" := "a1" ]} "source").
  - left.
  - cbn. rewrite !elem_of_cons. auto.
  - reflexivity.
Defined.

(** An additional column called "text" takes the place of the joined
    text. *)
Example batch_context_text_replaced :
  ∃ context,
    batch_context string id ∅
      (__init__ ["a"; "b"] (Member ACCURACY) None ["title"] ["text"] [] false 3)
      [ {[ "title" := "t1"; "text" := "raw text" ]} ] = Ok context
    ∧ context !! "text" = Some (RawColumn string ["raw text"]).
Proof. eexists. split; reflexivity. Qed.

(** ** Invariants of the top-k counts *)

(** One turn of the loop, whatever the prediction: when it returns, it
    has counted either a hit, or a miss on a top-k list that is not
    empty. *)
Lemma topk_count_example_inv (names : list string) (nc nc' : Z)
    (plc plc' : PerLabelConfusions.t) (p : pyval * pyval * pyval) :
  topk_count_example names (nc, plc) p = Ok (nc', plc') →
  p.1.2 ≠ PList []
  ∧ ∃ expected,
      (nc' = nc + 1 ∧ plc' = PerLabelConfusions.update plc expected TP 1)
      ∨ (∃ first,
           nc' = nc
           ∧ plc' = PerLabelConfusions.update
                      (PerLabelConfusions.update plc expected FN 1) first FP 1).
Proof.
  destruct p as [[scores topk] label]. unfold topk_count_example. cbn [fst snd].
  destruct (py_iter topk) as [items |] eqn:Eiter; cbn [bind]; [| done].
  destruct (map_result (py_index names) items) as [predicted |] eqn:Epred;
    cbn [bind]; [| done].
  destruct (py_index names label) as [expected |]; cbn [bind]; [| done].
  case_bool_decide as Hin.
  - intros [= <- <-]. split.
    + intros ->. injection Eiter as <-. injection Epred as <-.
      by apply elem_of_nil in Hin.
    + exists expected. by left.
  - destruct (py_getitem predicted 0) as [first |] eqn:Efirst; cbn [bind]; [| done].
    intros [= <- <-]. split.
    + intros ->. injection Eiter as <-. injection Epred as <-. done.
    + exists expected. right. by exists first.
Qed.

Lemma confusion_get_add (c : Confusions) (o o' : Outcome) (n : Z) :
  confusion_get (confusion_add c o n) o'
  = confusion_get c o' + (if bool_decide (o = o') then n else 0).
Proof. destruct o, o'; simpl; lia. Qed.

Lemma total_update (plc : PerLabelConfusions.t) (l : string) (o o' : Outcome) (n : Z) :
  total (PerLabelConfusions.update plc l o n) o'
  = total plc o' + (if bool_decide (o = o') then n else 0).
Proof.
  unfold total, PerLabelConfusions.update.
  assert (∀ (m : gmap string Confusions) (j1 j2 : string) (z1 z2 : Confusions) (y : Z),
            confusion_get z1 o' + (confusion_get z2 o' + y)
            = confusion_get z2 o' + (confusion_get z1 o' + y)) as Hcomm
    by (intros; lia).
  destruct (plc !! l) as [c0 |] eqn:Hl; cbn [default].
  - rewrite <- insert_delete_eq.
    rewrite map_fold_insert_L; [| intros; apply (Hcomm plc j1 j2) | apply lookup_delete_eq].
    rewrite (map_fold_delete_L _ _ l c0 plc); [| intros; apply (Hcomm plc j1 j2) | done].
    rewrite confusion_get_add. change (id c0) with c0. case_bool_decide; lia.
  - rewrite map_fold_insert_L; [| intros; apply (Hcomm plc j1 j2) | done].
    rewrite confusion_get_add.
    assert (confusion_get no_confusions o' = 0) as -> by (by destruct o').
    case_bool_decide; lia.
Qed.

Lemma total_update_same (plc : PerLabelConfusions.t) (l : string) (o : Outcome) (n : Z) :
  total (PerLabelConfusions.update plc l o n) o = total plc o + n.
Proof. by rewrite total_update, bool_decide_eq_true_2. Qed.

Lemma total_update_other (plc : PerLabelConfusions.t) (l : string)
    (o o' : Outcome) (n : Z) :
  o ≠ o' → total (PerLabelConfusions.update plc l o n) o' = total plc o'.
Proof. intros Hne. rewrite total_update, bool_decide_eq_false_2 by done. lia. Qed.

Lemma topk_count_totals_from (names : list string)
    (predictions : list (pyval * pyval * pyval))
    (nc0 nc : Z) (plc0 plc : PerLabelConfusions.t) :
  fold_result (topk_count_example names) (nc0, plc0) predictions = Ok (nc, plc) →
  total plc TP - total plc0 TP = nc - nc0
  ∧ (total plc TP - total plc0 TP) + (total plc FN - total plc0 FN)
    = Z.of_nat (length predictions)
  ∧ total plc FP - total plc0 FP = total plc FN - total plc0 FN
  ∧ total plc TN = total plc0 TN
  ∧ 0 ≤ nc - nc0 ≤ Z.of_nat (length predictions).
Proof.
  revert nc0 plc0. induction predictions as [| p predictions IH]; intros nc0 plc0.
  - cbn. intros [= <- <-]. lia.
  - cbn [fold_result].
    destruct (topk_count_example names (nc0, plc0) p) as [[nc1 plc1] |] eqn:Ep;
      cbn [bind]; [| done].
    intros Hrest. apply IH in Hrest as (Htp & Hall & Hfp & Htn & Hnc).
    apply topk_count_example_inv in Ep
      as (_ & expected & [[-> ->] | (first & -> & ->)]).
    + repeat (rewrite total_update_same in Htp
              || rewrite total_update_other in Htp by done).
      repeat (rewrite total_update_same in Hall
              || rewrite total_update_other in Hall by done).
      repeat (rewrite total_update_same in Hfp
              || rewrite total_update_other in Hfp by done).
      repeat (rewrite total_update_same in Htn
              || rewrite total_update_other in Htn by done).
      cbn [length]. rewrite Nat2Z.inj_succ. lia.
    + repeat (rewrite total_update_same in Htp
              || rewrite total_update_other in Htp by done).
      repeat (rewrite total_update_same in Hall
              || rewrite total_update_other in Hall by done).
      repeat (rewrite total_update_same in Hfp
              || rewrite total_update_other in Hfp by done).
      repeat (rewrite total_update_same in Htn
              || rewrite total_update_other in Htn by done).
      cbn [length]. rewrite Nat2Z.inj_succ. lia.
Qed.

(** X12 -- The confusion counters of a returned top-k count add up: over all
    labels there are as many TP as correct predictions, TP and FN
    together are the number of predictions, there are as many FP as FN,
    and no TN. *)
Theorem topk_count_totals (names : list string)
    (predictions : list (pyval * pyval * pyval))
    (num_correct : Z) (plc : PerLabelConfusions.t) :
  topk_count predictions names = Ok (num_correct, plc) →
  total plc TP = num_correct
  ∧ total plc TP + total plc FN = Z.of_nat (length predictions)
  ∧ total plc FP = total plc FN
  ∧ total plc TN = 0
  ∧ 0 ≤ num_correct ≤ Z.of_nat (length predictions).
Proof.
  unfold topk_count. intros H%topk_count_totals_from.
  unfold total, PerLabelConfusions.new in H. rewrite !map_fold_empty in H.
  fold (total plc TP) (total plc FN) (total plc FP) (total plc TN) in H. lia.
Qed.

Lemma topk_count_totals_witness :
  ∃ plc,
    topk_count (LabelTopKPrediction <$> example_topk_predictions) example_names
    = Ok (1, plc)
    ∧ total plc TP = 1 ∧ total plc FN = 1 ∧ total plc FP = 1.
Proof.
  eexists. split; [reflexivity |].
  match goal with |- total ?plc TP = 1 ∧ _ =>
    assert (topk_count (LabelTopKPrediction <$> example_topk_predictions)
              example_names = Ok (1, plc)) as Hrun by reflexivity;
    destruct (topk_count_totals example_names
                (LabelTopKPrediction <$> example_topk_predictions) 1 plc Hrun)
      as (Htp & Hall & Hfp & _)
  end.
  change (Z.of_nat (length (LabelTopKPrediction <$> example_topk_predictions)))
    with 2 in Hall.
  lia.
Defined.

Lemma safe_division_unit (n d : Z) :
  0 ≤ n ≤ d → (0 <= safe_division n d)%Q ∧ (safe_division n d <= 1)%Q.
Proof.
  intros Hn. unfold safe_division.
  destruct (d =? 0) eqn:Hd; [done |].
  apply Z.eqb_neq in Hd.
  destruct d as [| d | d]; [done | | lia].
  unfold Qle, Qdiv, Qmult, Qinv, inject_Z. simpl. lia.
Qed.

(** X13 -- The accuracy of a report that the top-k metric calculator returns
    lies between 0 and 1. *)
Theorem topk_accuracy_in_unit_interval
    (compute_metrics : PerLabelConfusions.t → bool → MacroPRF1Metrics)
    (predictions : list (pyval * pyval * pyval)) (names : list string)
    (loss : option Q) (log : bool) (r : ClassificationMetrics) :
  compute_topk_classification_metrics compute_metrics predictions names loss log
  = Ok r →
  (0 <= accuracy r)%Q ∧ (accuracy r <= 1)%Q.
Proof.
  unfold compute_topk_classification_metrics.
  destruct (topk_count predictions names) as [[nc plc] |] eqn:E; cbn [bind]; [| done].
  intros [= <-]. cbn [accuracy].
  apply topk_count_totals_from in E as (_ & _ & _ & _ & Hnc).
  apply safe_division_unit. lia.
Qed.

Lemma topk_accuracy_in_unit_interval_witness :
  ∃ r, compute_topk_classification_metrics PerLabelConfusions.compute_metrics
         (LabelTopKPrediction <$> example_topk_predictions) example_names
         (Some (4 # 10)%Q) true = Ok r
       ∧ accuracy r = (1 # 2)%Q
       ∧ (0 <= accuracy r)%Q ∧ (accuracy r <= 1)%Q.
Proof.
  eexists. split; [reflexivity |]. split; [reflexivity |].
  exact (topk_accuracy_in_unit_interval PerLabelConfusions.compute_metrics
           (LabelTopKPrediction <$> example_topk_predictions) example_names
           (Some (4 # 10)%Q) true _ eq_refl).
Defined.

(** ** Empty top-k lists *)

Lemma topk_count_empty_list (predictions : list (pyval * pyval * pyval))
    (names : list string) (scores label : pyval) :
  (scores, PList [], label) ∈ predictions →
  ∃ e, topk_count predictions names = Raise e.
Proof.
  intros Hin. unfold topk_count.
  destruct (fold_result (topk_count_example names) (0, PerLabelConfusions.new)
              predictions) as [[nc plc] | e] eqn:Erun; [| eauto].
  exfalso.
  destruct (fold_result_ok _ _ _ _ Erun _ Hin) as ([nc1 plc1] & [nc2 plc2] & Hstep).
  apply topk_count_example_inv in Hstep as [Hne _]. by apply Hne.
Qed.

(** X14 -- A prediction whose top-k list is empty makes the top-k metric
    calculator raise, wherever it stands among the predictions: an empty
    list cannot contain the expected label, and a miss has no first
    element to blame. *)
Theorem topk_empty_list_raises
    (compute_metrics : PerLabelConfusions.t → bool → MacroPRF1Metrics)
    (predictions : list (pyval * pyval * pyval)) (names : list string)
    (loss : option Q) (log : bool) (scores label : pyval) :
  (scores, PList [], label) ∈ predictions →
  ∃ e, compute_topk_classification_metrics compute_metrics predictions names
         loss log = Raise e.
Proof.
  intros Hin. unfold compute_topk_classification_metrics.
  destruct (topk_count_empty_list predictions names scores label Hin) as [e ->].
  cbn [bind]. eauto.
Qed.

Lemma topk_empty_list_raises_witness :
  ∃ e, compute_topk_classification_metrics PerLabelConfusions.compute_metrics
         [ (PList [], index_row [0; 1], PInt 1); (PList [], PList [], PInt 0) ]
         example_names None true = Raise e.
Proof.
  apply (topk_empty_list_raises PerLabelConfusions.compute_metrics _ example_names
           None true (PList []) (PInt 0)).
  right. left.
Defined.

(** X15 -- When the top-k buffer is shorter than the target buffer or the score
    buffer, the padding zip of the top-k [calculate_metric] fills in
    empty top-k lists, and [calculate_metric] raises. *)
Theorem topk_calculate_metric_short_buffer
    (compute_metrics : PerLabelConfusions.t → bool → MacroPRF1Metrics)
    (calculate_loss : Reporter → result (option Q)) (self : Reporter) :
  (length (all_topk_preds (acc self))
   < length (all_scores (acc self)) `max` length (all_targets (acc self)))%nat →
  ∃ e, TopKClassificationMetricReporter.calculate_metric compute_metrics
         calculate_loss self = Raise e.
Proof.
  intros Hshort. unfold TopKClassificationMetricReporter.calculate_metric.
  destruct (calculate_loss self) as [loss | e]; cbn [bind]; [| eauto].
  set (i := length (all_topk_preds (acc self))).
  unfold compute_topk_classification_metrics.
  destruct (topk_count_empty_list
              (TopKClassificationMetricReporter.topk_label_predictions self)
              (label_names self)
              (default (PList []) (all_scores (acc self) !! i))
              (default (PList []) (all_targets (acc self) !! i))) as [e ->].
  - apply list_elem_of_lookup. exists i.
    unfold TopKClassificationMetricReporter.topk_label_predictions.
    rewrite lookup_zip_longest by (subst i; lia).
    by rewrite (lookup_ge_None_2 (all_topk_preds (acc self)) i) by (subst i; lia).
  - cbn [bind]. eauto.
Qed.

Lemma topk_calculate_metric_short_buffer_witness :
  ∃ e, TopKClassificationMetricReporter.calculate_metric
         PerLabelConfusions.compute_metrics mean_loss example_short_topk = Raise e.
Proof.
  apply (topk_calculate_metric_short_buffer PerLabelConfusions.compute_metrics
           mean_loss example_short_topk).
  cbn. lia.
Defined.

(** ** The order of the predictions *)

Lemma count_where_Permutation {A : Type} (P : A → bool) (l l' : list A) :
  l ≡ₚ l' → count_where P l = count_where P l'.
Proof.
  induction 1 as [| x l l' _ IH | x y l | l l' l'' _ IH1 _ IH2];
    rewrite ?count_where_cons; lia.
Qed.

Lemma forallb_Permutation {A : Type} (P : A → bool) (l l' : list A) :
  l ≡ₚ l' → forallb P l = true → forallb P l' = true.
Proof.
  intros Hperm. rewrite !forallb_forall. intros Hall x Hx.
  apply Hall. apply list_elem_of_In. rewrite Hperm. by apply list_elem_of_In.
Qed.

(** X16 -- The top-k counts do not depend on the order of the predictions:
    permuting well-formed predictions leaves [num_correct] and every
    confusion counter as they were. *)
Theorem topk_count_order_independent
    (names : list string) (exs exs' : list TopKExample) :
  exs ≡ₚ exs' →
  forallb (well_formed names) exs = true →
  ∃ num_correct plc plc',
    topk_count (LabelTopKPrediction <$> exs) names = Ok (num_correct, plc)
    ∧ topk_count (LabelTopKPrediction <$> exs') names = Ok (num_correct, plc')
    ∧ ∀ l o, PerLabelConfusions.count plc l o = PerLabelConfusions.count plc' l o.
Proof.
  intros Hperm Hwf.
  pose proof (forallb_Permutation _ _ _ Hperm Hwf) as Hwf'.
  destruct (topk_count_from names exs 0 PerLabelConfusions.new Hwf)
    as (plc & Hrun & Hcount).
  destruct (topk_count_from names exs' 0 PerLabelConfusions.new Hwf')
    as (plc' & Hrun' & Hcount').
  exists (0 + count_where (is_hit names) exs), plc, plc'. unfold topk_count.
  split; [exact Hrun |]. split.
  - by rewrite Hrun', (count_where_Permutation _ _ _ Hperm).
  - intros l o.
    by rewrite Hcount, Hcount', (count_where_Permutation _ _ _ Hperm).
Qed.

Lemma topk_count_order_independent_witness :
  ∃ num_correct plc plc',
    topk_count (LabelTopKPrediction <$> example_topk_predictions) example_names
    = Ok (num_correct, plc)
    ∧ topk_count (LabelTopKPrediction <$> reverse example_topk_predictions)
        example_names = Ok (num_correct, plc')
    ∧ ∀ l o, PerLabelConfusions.count plc l o = PerLabelConfusions.count plc' l o.
Proof.
  apply (topk_count_order_independent example_names example_topk_predictions
           (reverse example_topk_predictions)).
  - symmetry. apply reverse_Permutation.
  - reflexivity.
Defined.

(** ** Model selection on a top-k report *)

(** X17 -- On a report of the top-k metric calculator, selecting [accuracy]
    returns the accuracy, while the metrics computed from scores can
    only fault: [roc_auc] and [mcc] fail the final assertion, and
    [label_avg_precision] and [label_roc_auc] find no entry for any
    target label. *)
Theorem topk_report_model_selection
    (compute_metrics : PerLabelConfusions.t → bool → MacroPRF1Metrics)
    (predictions : list (pyval * pyval * pyval)) (names : list string)
    (loss : option Q) (log : bool) (r : ClassificationMetrics) (self : Reporter) :
  compute_topk_classification_metrics compute_metrics predictions names loss log
  = Ok r →
  (model_select_metric self = Member ACCURACY →
   ClassificationMetricReporter.get_model_select_metric self r = Ok (accuracy r))
  ∧ (binary_only (model_select_metric self) →
     ClassificationMetricReporter.get_model_select_metric self r
     = Raise AssertionError)
  ∧ (model_select_metric self = Member LABEL_AVG_PRECISION
     ∨ model_select_metric self = Member LABEL_ROC_AUC →
     ClassificationMetricReporter.get_model_select_metric self r = Raise KeyError).
Proof.
  intros (Hsoft & Hmcc & Hroc)%compute_topk_no_soft_metrics.
  unfold ClassificationMetricReporter.get_model_select_metric.
  split; [| split].
  - intros ->. done.
  - intros [-> | ->]; cbn [bind]; [by rewrite Hroc | by rewrite Hmcc].
  - intros [-> | ->]; rewrite Hsoft; destruct (target_label self) as [t |];
      by rewrite ?lookup_empty.
Qed.

Lemma topk_report_model_selection_witness :
  ∃ r, compute_topk_classification_metrics PerLabelConfusions.compute_metrics
         (LabelTopKPrediction <$> example_topk_predictions) example_names
         None true = Ok r
       ∧ ClassificationMetricReporter.get_model_select_metric
           (example_reporter (Member ACCURACY) None) r = Ok (1 # 2)%Q
       ∧ ClassificationMetricReporter.get_model_select_metric
           (example_reporter (Member ROC_AUC) None) r = Raise AssertionError.
Proof.
  eexists. split; [reflexivity |].
  match goal with |- ClassificationMetricReporter.get_model_select_metric _ ?r = _ ∧ _ =>
    assert (compute_topk_classification_metrics PerLabelConfusions.compute_metrics
              (LabelTopKPrediction <$> example_topk_predictions) example_names
              None true = Ok r) as Hrun by reflexivity
  end.
  split.
  - apply (topk_report_model_selection _ _ _ _ _ _
             (example_reporter (Member ACCURACY) None) Hrun). reflexivity.
  - apply (topk_report_model_selection _ _ _ _ _ _
             (example_reporter (Member ROC_AUC) None) Hrun). by left.
Defined.

(** X18 -- Selecting [negative_loss] reverses the order of the losses: of two
    reports, the one with the lower loss gets the higher value. *)
Theorem negative_loss_prefers_lower_loss
    (self : Reporter) (r1 r2 : ClassificationMetrics) (l1 l2 : Q) :
  model_select_metric self = Member NEGATIVE_LOSS →
  loss r1 = Some l1 → loss r2 = Some l2 → (l1 < l2)%Q →
  ∃ m1 m2,
    ClassificationMetricReporter.get_model_select_metric self r1 = Ok m1
    ∧ ClassificationMetricReporter.get_model_select_metric self r2 = Ok m2
    ∧ (m2 < m1)%Q.
Proof.
  intros Hm H1 H2 Hlt. unfold ClassificationMetricReporter.get_model_select_metric.
  rewrite Hm, H1, H2. cbn [bind].
  exists (- l1)%Q, (- l2)%Q. split; [done |]. split; [done |].
  by apply Qopp_lt_compat.
Qed.

Lemma negative_loss_prefers_lower_loss_witness :
  ∃ m1 m2,
    ClassificationMetricReporter.get_model_select_metric
      (example_reporter (Member NEGATIVE_LOSS) None) example_report = Ok m1
    ∧ ClassificationMetricReporter.get_model_select_metric
        (example_reporter (Member NEGATIVE_LOSS) None) example_report_2 = Ok m2
    ∧ (m2 < m1)%Q.
Proof.
  apply (negative_loss_prefers_lower_loss
           (example_reporter (Member NEGATIVE_LOSS) None)
           example_report example_report_2 (4 # 10) (6 # 10));
    reflexivity.
Defined.

(** ** The [topk] of a reporter built from a configuration *)

(** The stable selection keeps the other promise of [torch.topk]: it
    raises on a row of fewer than [k] scores. *)
Lemma stable_topk_rejects : rejects_short_rows stable_topk.
Proof.
  intros batch_scores k row Hrow Hshort. unfold stable_topk.
  destruct (map_result (stable_topk_row k) batch_scores) as [rows | e] eqn:E;
    cbn [bind].
  - destruct (map_result_ok _ _ _ E row Hrow) as [r Hr].
    unfold stable_topk_row in Hr.
    assert ((0 <=? k) && (k <=? Z.of_nat (length row)) = false) as Hk.
    { apply andb_false_iff. right. apply Z.leb_gt. lia. }
    by rewrite Hk in Hr.
  - f_equal. apply map_result_raise in E as (row' & _ & Hrow').
    unfold stable_topk_row in Hrow'.
    by destruct ((0 <=? k) && (k <=? Z.of_nat (length row'))); [| injection Hrow' as <-].
Qed.

(** X19 -- [from_config_and_label_names] never hands a [topk] to the
    constructor, so a top-k reporter it builds selects three labels
    whatever was configured; a batch with a score row of fewer than
    three scores then fails in [torch.topk], whose range error
    [add_batch_stats] lets through. *)
Theorem built_topk_reporter_selects_three
    (torch_topk : topk_function)
    (config : Config) (names : list string) (r : Reporter) (b : Batch)
    (row : list Q) :
  rejects_short_rows torch_topk →
  from_config_and_label_names config names = Ok r →
  b_m_input b ≠ InputTuple [] →
  row ∈ b_scores b →
  (length row < 3)%nat →
  topk r = 3
  ∧ TopKClassificationMetricReporter.add_batch_stats torch_topk r b
    = Raise RuntimeError.
Proof.
  intros Hrejects (-> & _)%from_config_and_label_names_built Hinput Hrow Hshort.
  split; [done |].
  unfold TopKClassificationMetricReporter.add_batch_stats.
  rewrite add_batch_stats_unfold.
  destruct (b_m_input b) as [[| m0 ms] | pending]; [done | |];
    cbn [recorded_batch_size bind];
    unfold TopKClassificationMetricReporter.aggregate_topkpreds;
    cbn [topk set_acc __init__];
    rewrite (Hrejects (b_scores b) TopKConfig_topk row) by
      (done || (unfold TopKConfig_topk; lia));
    done.
Qed.

Lemma built_topk_reporter_selects_three_witness :
  TopKClassificationMetricReporter.add_batch_stats stable_topk
    (__init__ ["a"; "b"] (Member MCC) None ["text"] [] [] false 3)
    (mkBatch 1 [PInt 0] [PInt 1] [[6 # 10; 4 # 10]]%Q None
       (InputTuple [[PInt 11]]) [])
  = Raise RuntimeError.
Proof.
  apply (built_topk_reporter_selects_three stable_topk
           (mkConfig (Member MCC) None ["text"] [] [] false) ["a"; "b"] _
           (mkBatch 1 [PInt 0] [PInt 1] [[6 # 10; 4 # 10]]%Q None
              (InputTuple [[PInt 11]]) [])
           [6 # 10; 4 # 10]%Q).
  - exact stable_topk_rejects.
  - reflexivity.
  - discriminate.
  - left.
  - cbn. lia.
Defined.
